(** * Video-conference workflow: icon cache, event cache and script filter

    A shallow embedding of [icons.py] and [video-conferences.py].  Python
    values are modelled by the Rocq data closest to them, effects by a state
    and exception monad over an explicit [World] (clock, event cache,
    background jobs, icon directory, Script Filter feedback). *)

From Stdlib Require Import ZArith String Ascii List DecimalString DecimalZ
  QArith.
From stdpp Require Import base strings gmap list.

Local Open Scope string_scope.

(** ** Python values used by the scripts *)

Module Py.

(** Truth value of an optional string: [None] and [''] are falsy. *)
Definition truthy (v : option string) : bool :=
  match v with
  | Some s => negb (String.eqb s "")
  | None => false
  end.

(** [x or y] on optional strings. *)
Definition or_ (x y : option string) : option string :=
  if truthy x then x else y.

(** [str(n)] for an integer: decimal digits, a leading [-] when negative. *)
Definition str (n : Z) : string := NilZero.string_of_int (Z.to_int n).

(** [s.startswith(p)]. *)
Fixpoint startswith (s p : string) : bool :=
  match p, s with
  | "", _ => true
  | String _ _, "" => false
  | String c p', String d s' => Ascii.eqb c d && startswith s' p'
  end.

(** [s.endswith(p)]: some tail of [s] is [p]. *)
Fixpoint endswith (s p : string) : bool :=
  String.eqb s p ||
  match s with
  | "" => false
  | String _ rest => endswith rest p
  end.

(** [sep.join(l)]. *)
Fixpoint join (sep : string) (l : list string) : string :=
  match l with
  | [] => ""
  | [x] => x
  | x :: rest => x +:+ sep +:+ join sep rest
  end.

End Py.

(** The [__hash__]/[__eq__] protocol of the colour components (JSON numbers:
    Python ints and floats).  The scripts only hash them and compare them. *)
Class PyHash (A : Type) := {
  py_eq_dec :: EqDecision A;
  hash : A → Z
}.

(** ** [os.path] on POSIX *)

Module posixpath.

Definition sep : ascii := "/"%char.

(** One step of [os.path.join]: an absolute component restarts the path,
    an empty path or one ending in a separator takes the component as is,
    otherwise a separator is put in between. *)
Definition join2 (path b : string) : string :=
  if Py.startswith b "/" then b
  else if String.eqb path "" || Py.endswith path "/" then path +:+ b
  else path +:+ "/" +:+ b.

(** [os.path.join(a, *p)]. *)
Definition join (a : string) (p : list string) : string :=
  fold_left join2 p a.

Definition is_sep (c : ascii) : bool := Ascii.eqb c sep.

Fixpoint drop_while (f : ascii → bool) (l : list ascii) : list ascii :=
  match l with
  | [] => []
  | c :: rest => if f c then drop_while f rest else l
  end.

(** [os.path.dirname(p)]: everything up to and including the last
    separator, with trailing separators stripped unless the head consists
    of separators only. *)
Definition dirname (p : string) : string :=
  let r := rev (list_ascii_of_string p) in
  let head := drop_while (λ c, negb (is_sep c)) r in
  let head := if forallb is_sep head then head else drop_while is_sep head in
  string_of_list_ascii (rev head).

(** The chain [dirname p], [dirname (dirname p)], ... down to the empty
    path or a fixed point. *)
Fixpoint parents (fuel : nat) (p : string) : list string :=
  match fuel with
  | O => []
  | S fuel =>
      let d := dirname p in
      if String.eqb d "" || String.eqb d p then [] else d :: parents fuel d
  end.

End posixpath.

(** ** Exceptions and results *)

Inductive exn :=
  | ValueError (msg : string)
  | TypeError (msg : string)
  | KeyError (key : string)
  | RuntimeError (msg : string)
  | CalledProcessError (returncode : Z).

Inductive result (A : Type) :=
  | Return (a : A)
  | Raise (e : exn).
Arguments Return {A} a.
Arguments Raise {A} e.

(** ** Data model *)

(** Naive local [datetime] values, ordered as the integers they count. *)
Definition datetime := Z.

(** An event dictionary of the [events] list, dates already parsed. *)
Record Event (number : Type) := mkEvent {
  title : string;
  start_date : datetime;
  end_date : datetime;
  account : string;
  calendar : string;
  url : string;
  location : string;
  notes : string;
  colour : list number;
  uid : string
}.
Arguments mkEvent {number}.
Arguments title {number}.
Arguments start_date {number}.
Arguments end_date {number}.
Arguments account {number}.
Arguments calendar {number}.
Arguments url {number}.
Arguments location {number}.
Arguments notes {number}.
Arguments colour {number}.
Arguments uid {number}.

(** [event['url'] = v]. *)
Definition set_url {number} (v : string) (e : Event number) : Event number :=
  mkEvent (title e) (start_date e) (end_date e) (account e) (calendar e)
          v (location e) (notes e) (colour e) (uid e).

(** The dictionary returned by [CalendarEvents.scpt]: either key may be
    missing. *)
Record Dataset (number : Type) := mkDataset {
  events : option (list (Event number));
  error : option string
}.
Arguments mkDataset {number}.
Arguments events {number}.
Arguments error {number}.

(** [bool(data)] for a cached value: [None] and the empty dict are falsy. *)
Definition data_truthy {number} (data : option (Dataset number)) : bool :=
  match data with
  | None => false
  | Some d =>
      match events d, error d with
      | None, None => false
      | _, _ => true
      end
  end.

(** A node of the icon directory tree.  An image is described by what the
    renderer was asked for: the mask and the tint. *)
Inductive node (number : Type) :=
  | Dir
  | Image (template : string) (tint : list number)
  | Other.
Arguments Dir {number}.
Arguments Image {number}.
Arguments Other {number}.

(** A feedback item of the Script Filter. *)
Record Item := mkItem {
  item_title : string;
  item_subtitle : string;
  item_arg : option string;
  item_valid : bool;
  item_icon : option string;
  item_vars : list (string * string)
}.

(** A compiled pattern: [search s] is [m.group(0)] of [rx.search(s)], or
    [None] when there is no match. *)
Record Pattern := mkPattern {
  search : string → option string
}.

(** The workflow configuration read by [load_config]. *)
Record Config := mkConfig {
  MAX_CACHE_AGE : Z;
  LOOKAHEAD_DAYS : Z;
  ACCOUNTS : gset string;
  CALENDARS : gset string;
  REGEXES : list Pattern
}.

(** The default configuration of the module, before any variable is read. *)
Definition default_config : Config := mkConfig 600 7 ∅ ∅ [].

(** Everything the scripts read or change. *)
Record World (number : Type) := mkWorld {
  clock : datetime;
  argv0 : string;
  cachedir : string;
  source : result (Dataset number);
  events_cache : option (Dataset number * datetime);
  running : gset string;
  launched : list (string * list string);
  fs : gmap string (node number);
  renders : list (string * string * list number);
  triggers : list string;
  commands : list (list string);
  items : list Item;
  rerun : Q;
  feedback_sent : bool
}.
Arguments mkWorld {number}.
Arguments clock {number}.
Arguments argv0 {number}.
Arguments cachedir {number}.
Arguments source {number}.
Arguments events_cache {number}.
Arguments running {number}.
Arguments launched {number}.
Arguments fs {number}.
Arguments renders {number}.
Arguments triggers {number}.
Arguments commands {number}.
Arguments items {number}.
Arguments rerun {number}.
Arguments feedback_sent {number}.

(** Field updates of the world. *)
Definition set_events_cache {number} (v : option (Dataset number * datetime))
    (w : World number) : World number :=
  mkWorld (clock w) (argv0 w) (cachedir w) (source w) v (running w)
          (launched w) (fs w) (renders w) (triggers w) (commands w)
          (items w) (rerun w) (feedback_sent w).

Definition set_jobs {number} (r : gset string) (l : list (string * list string))
    (w : World number) : World number :=
  mkWorld (clock w) (argv0 w) (cachedir w) (source w) (events_cache w) r
          l (fs w) (renders w) (triggers w) (commands w)
          (items w) (rerun w) (feedback_sent w).

Definition set_fs {number} (v : gmap string (node number))
    (w : World number) : World number :=
  mkWorld (clock w) (argv0 w) (cachedir w) (source w) (events_cache w)
          (running w) (launched w) v (renders w) (triggers w) (commands w)
          (items w) (rerun w) (feedback_sent w).

Definition set_renders {number} (v : list (string * string * list number))
    (w : World number) : World number :=
  mkWorld (clock w) (argv0 w) (cachedir w) (source w) (events_cache w)
          (running w) (launched w) (fs w) v (triggers w) (commands w)
          (items w) (rerun w) (feedback_sent w).

Definition set_triggers {number} (v : list string)
    (w : World number) : World number :=
  mkWorld (clock w) (argv0 w) (cachedir w) (source w) (events_cache w)
          (running w) (launched w) (fs w) (renders w) v (commands w)
          (items w) (rerun w) (feedback_sent w).

Definition set_commands {number} (v : list (list string))
    (w : World number) : World number :=
  mkWorld (clock w) (argv0 w) (cachedir w) (source w) (events_cache w)
          (running w) (launched w) (fs w) (renders w) (triggers w) v
          (items w) (rerun w) (feedback_sent w).

Definition set_items {number} (v : list Item)
    (w : World number) : World number :=
  mkWorld (clock w) (argv0 w) (cachedir w) (source w) (events_cache w)
          (running w) (launched w) (fs w) (renders w) (triggers w)
          (commands w) v (rerun w) (feedback_sent w).

Definition set_rerun {number} (v : Q) (w : World number) : World number :=
  mkWorld (clock w) (argv0 w) (cachedir w) (source w) (events_cache w)
          (running w) (launched w) (fs w) (renders w) (triggers w)
          (commands w) (items w) v (feedback_sent w).

Definition set_feedback_sent {number} (v : bool)
    (w : World number) : World number :=
  mkWorld (clock w) (argv0 w) (cachedir w) (source w) (events_cache w)
          (running w) (launched w) (fs w) (renders w) (triggers w)
          (commands w) (items w) (rerun w) v.

(** ** The monad of the scripts: state passing with exceptions.  A raised
    exception keeps the changes made before it. *)

Definition M (number A : Type) : Type := World number → result A * World number.

Definition ret {number A} (a : A) : M number A := λ w, (Return a, w).

Definition bind {number A B} (m : M number A) (k : A → M number B)
    : M number B :=
  λ w,
    match m w with
    | (Return a, w') => k a w'
    | (Raise e, w') => (Raise e, w')
    end.

Declare Scope M_scope.
Delimit Scope M_scope with M.
Bind Scope M_scope with M.
Notation "x ← y ; z" := (bind y (λ x, z))
  (at level 20, y at level 100, z at level 200, only parsing) : M_scope.
Notation "x ;; z" := (bind x (λ _, z))
  (at level 100, z at level 200, only parsing, right associativity) : M_scope.
Local Open Scope M_scope.

Definition raise {number A} (e : exn) : M number A := λ w, (Raise e, w).
Definition gets {number A} (f : World number → A) : M number A :=
  λ w, (Return (f w), w).
Definition modify {number} (f : World number → World number) : M number unit :=
  λ w, (Return tt, f w).
Definition lift {number A} (r : result A) : M number A := λ w, (r, w).

(** [for x in l: body x], stopping at the first exception. *)
Fixpoint for_each {number A} (l : list A) (body : A → M number unit)
    : M number unit :=
  match l with
  | [] => ret tt
  | x :: rest => body x ;; for_each rest body
  end.

(** ** Operating-system calls on the icon directory *)

Module os.
Section WithNumber.
Context {number : Type}.

(** [os.path.exists(path)]. *)
Definition path_exists (path : string) : M number bool :=
  gets (λ w, bool_decide (is_Some (fs w !! path))).

Definition mkdir_missing (d : string) (t : gmap string (node number))
    : gmap string (node number) :=
  match t !! d with
  | Some _ => t
  | None => <[d := Dir]> t
  end.

(** [os.makedirs(name)]: the leaf directory and every missing
    intermediate directory are created, outermost first.  Refusals of the
    operating system (permissions, a full disk) are outside the model. *)
Definition makedirs (name : string) : M number unit :=
  modify (λ w,
    set_fs (foldr mkdir_missing (fs w)
              (name :: posixpath.parents (String.length name) name)) w).
End WithNumber.
End os.

(** ** icons.py *)

Module Icons.

(** An [Icons] object. *)
Record t := mk {
  dirpath : string;
  default : option string;
  template : option string
}.

(** [Icons(dirpath)] with the keyword defaults of [__init__]. *)
Definition init (dirpath : string) : t :=
  mk dirpath (Some "icon.png") (Some "icon.png").

Section WithNumber.
Context {number : Type} `{!PyHash number}.

(** [_write_image(template, outfile, colour)]: the renderer writes the
    tinted copy of the mask to [outfile].  The Cocoa calls are taken to do
    what the docstring says: a new image is created at [outfile]. *)
Definition _write_image (template outfile : string) (colour : list number)
    : M number unit :=
  modify (λ w,
    set_renders (renders w ++ [(template, outfile, colour)])
      (set_fs (<[outfile := Image template colour]> (fs w)) w)).

(** [Icons._icon_path(colour)].  [os.path.join] applied to the unpacked
    [elems] needs at least one element. *)
Definition _icon_path (self : t) (colour : list number) : result string :=
  let elems := map (λ n, Py.str (hash n)) colour in
  let filename := Py.join "-" elems +:+ ".png" in
  match elems with
  | [] => Raise (TypeError "join() takes at least 1 argument (0 given)")
  | e :: rest =>
      let dirname := posixpath.join e rest in
      Return (posixpath.join (dirpath self) [dirname; filename])
  end.

(** [Icons.get_icon(colour, default=None)]. *)
Definition get_icon (self : t) (colour : list number)
    (default : option string) : M number (option string) :=
  let default := Py.or_ default (Icons.default self) in
  path ← lift (_icon_path self colour);
  found ← os.path_exists path;
  ret (if found then Some path else default).

(** [Icons.create_icon(colour, template=None)]. *)
Definition create_icon (self : t) (colour : list number)
    (template : option string) : M number string :=
  let template := Py.or_ template (Icons.template self) in
  if negb (Py.truthy template) then
    raise (ValueError "no template specified")
  else
    path ← lift (_icon_path self colour);
    found ← os.path_exists path;
    if found then ret path
    else
      let dirname := posixpath.dirname path in
      dir_found ← os.path_exists dirname;
      (if negb dir_found then os.makedirs dirname else ret tt) ;;
      _write_image (from_option id "" template) path colour ;;
      ret path.

(** [cache_path(colour)]: the relative path, module-level twin of
    [_icon_path]. *)
Definition cache_path (colour : list number) : result string :=
  let elems := map (λ n, Py.str (hash n)) colour in
  let filename := Py.join "-" elems +:+ ".png" in
  match elems with
  | [] => Raise (TypeError "join() takes at least 1 argument (0 given)")
  | e :: rest =>
      let dirname := posixpath.join e rest in
      Return (posixpath.join dirname [filename])
  end.
End WithNumber.
End Icons.

(** CPython's hash of a machine-size integer: the integer itself, except
    that [-1] is reserved and hashes to [-2]. *)
Global Instance int_hash : PyHash Z := {|
  py_eq_dec := Z.eq_dec;
  hash := λ n, if (n =? -1)%Z then (-2)%Z else n
|}.

(** ** The Alfred-Workflow library, as far as the scripts use it *)

(** What the scripts take from the library and the platform without
    computing it themselves: the fuzzy title filter [wf.filter], [strftime],
    and the two stock icons. *)
Class Externals (number : Type) := {
  wf_filter : string → list (Event number) → list (Event number);
  strftime : datetime → string → string;
  ICON_INFO : string;
  ICON_WARNING : string
}.

Module wf.
Section WithNumber.
Context {number : Type}.

(** [Workflow3()]: a new workflow object has no items, no rerun
    interval and has sent nothing. *)
Definition Workflow3 (w : World number) : World number :=
  set_feedback_sent false (set_rerun 0%Q (set_items [] w)).

(** [wf.cachefile(name)]. *)
Definition cachefile (name : string) : M number string :=
  gets (λ w, posixpath.join (cachedir w) [name]).

(** Modelled from the spec: the Event Cache's [save], absent from the
    sources ([wf.cache_data('events', data)]).  It overwrites the single
    stored Dataset and records the current time as its timestamp. *)
Definition cache_data (data : Dataset number) : M number unit :=
  modify (λ w, set_events_cache (Some (data, clock w)) w).

(** Modelled from the spec: the Event Cache's [load], absent from the
    sources ([wf.cached_data('events', max_age=...)]).  The stored
    Dataset is returned when its age is within [max_age]; a [max_age] of
    zero returns whatever is stored. *)
Definition load (max_age : Z) (w : World number) : option (Dataset number) :=
  match events_cache w with
  | Some (data, stamp) =>
      if (max_age =? 0)%Z || (clock w - stamp <=? max_age)%Z
      then Some data else None
  | None => None
  end.

Definition cached_data (max_age : Z) : M number (option (Dataset number)) :=
  gets (load max_age).

(** Modelled from the spec: the Event Cache's [is_fresh], absent from
    the sources ([wf.cached_data_fresh('events', max_age)]): the boolean
    form of the rule of [load]. *)
Definition cached_data_fresh (max_age : Z) : M number bool :=
  gets (λ w, bool_decide (is_Some (load max_age w))).

(** [wf.rerun = v]. *)
Definition set_rerun (v : Q) : M number unit := modify (set_rerun v).

(** [wf.add_item(...)]: the new item goes last; its position stands for
    the returned item object. *)
Definition add_item (title subtitle : string) (arg : option string)
    (valid : bool) (icon : option string) : M number nat :=
  λ w, (Return (length (items w)),
        set_items (items w ++ [mkItem title subtitle arg valid icon []]) w).

(** [it.setvar(name, value)]. *)
Definition setvar (it : nat) (name value : string) : M number unit :=
  modify (λ w,
    set_items
      (alter (λ i, mkItem (item_title i) (item_subtitle i) (item_arg i)
                     (item_valid i) (item_icon i)
                     (item_vars i ++ [(name, value)])) it (items w)) w).

(** [wf.warn_empty(title)]: a warning item, only when there is no item. *)
Definition warn_empty `{!Externals number} (title : string) : M number unit :=
  n ← gets (λ w, length (items w));
  if (n =? 0)%nat then
    add_item title "" None false (Some ICON_WARNING) ;; ret tt
  else ret tt.

(** [wf.send_feedback()]. *)
Definition send_feedback : M number unit := modify (set_feedback_sent true).
End WithNumber.
End wf.

Module background.
Section WithNumber.
Context {number : Type}.

(** Modelled from the spec: the Job Registry's [is_running(name)],
    absent from the sources. *)
Definition is_running (name : string) : M number bool :=
  gets (λ w, bool_decide (name ∈ running w)).

(** Modelled from the spec: the Job Registry's [launch(name, args)],
    absent from the sources.  Starting a job while one of that name is
    running is a no-op. *)
Definition run_in_background (name : string) (args : list string)
    : M number unit :=
  modify (λ w,
    if bool_decide (name ∈ running w) then w
    else set_jobs ({[name]} ∪ running w) (launched w ++ [(name, args)]) w).
End WithNumber.
End background.

Module util.
Section WithNumber.
Context {number : Type}.

(** [run_trigger(name)]. *)
Definition run_trigger (name : string) : M number unit :=
  modify (λ w, set_triggers (triggers w ++ [name]) w).

(** [run_command(cmd)], for its effect. *)
Definition run_command (cmd : list string) : M number unit :=
  modify (λ w, set_commands (commands w ++ [cmd]) w).
End WithNumber.
End util.

(** ** video-conferences.py *)

(** The options dictionary built by [docopt]. *)
Record Args := mkArgs {
  opt_calendar : option string;
  opt_event : option string;
  opt_reload : bool;
  opt_notify : bool;
  opt_force_reload : bool;
  arg_query : option string
}.

(** The inner loop of [event_filter]: the first pattern that matches [s]. *)
Fixpoint search_patterns (rxs : list Pattern) (s : string) : option string :=
  match rxs with
  | [] => None
  | rx :: rest =>
      match search rx s with
      | Some m => Some m
      | None => search_patterns rest s
      end
  end.

(** The outer loop of [event_filter]: the first candidate with a match. *)
Fixpoint search_candidates (rxs : list Pattern) (candidates : list string)
    : option string :=
  match candidates with
  | [] => None
  | s :: rest =>
      match search_patterns rxs s with
      | Some m => Some m
      | None => search_candidates rxs rest
      end
  end.

Section Script.
Context {number : Type} `{!PyHash number} `{!Externals number}.
Variable cfg : Config.

(** [load_events()]: the script's answer with the dates parsed, or the
    exception of the failed call. *)
Definition load_events : M number (Dataset number) :=
  util.run_command ["/usr/bin/osascript"; "CalendarEvents.scpt";
                    Py.str (LOOKAHEAD_DAYS cfg)] ;;
  src ← gets source;
  lift src.

(** [generate_icons(events)]: one [create_icon] per distinct colour.  The
    set of colours is walked in the order of first occurrence. *)
Definition generate_icons (evs : list (Event number)) : M number unit :=
  dir ← wf.cachefile "icons";
  let icons := Icons.init dir in
  let colours := remove_dups (map colour evs) in
  for_each colours (λ c, Icons.create_icon icons c None ;; ret tt).

(** [event_filter(event)].  The event is changed in place, so the event
    after the call is returned beside the verdict; [false] stands for the
    [None] of the bare [return].  [datetime.now()] reads the clock of the
    world. *)
Definition event_filter (event : Event number)
    : M number (bool * Event number) :=
  now ← gets clock;
  if (end_date event <? now)%Z then ret (false, event)
  else if bool_decide (ACCOUNTS cfg ≠ ∅)
          && negb (bool_decide (account event ∈ ACCOUNTS cfg))
  then ret (false, event)
  else if bool_decide (CALENDARS cfg ≠ ∅)
          && negb (bool_decide (calendar event ∈ CALENDARS cfg))
  then ret (false, event)
  else
    let candidates := [url event; location event; notes event] in
    match search_candidates (REGEXES cfg) candidates with
    | Some m => ret (true, set_url m event)
    | None => ret (false, event)
    end.

(** [filter(event_filter, events)]. *)
Fixpoint filter_events (evs : list (Event number))
    : M number (list (Event number)) :=
  match evs with
  | [] => ret []
  | e :: rest =>
      r ← event_filter e;
      kept ← filter_events rest;
      ret (if r.1 then r.2 :: kept else kept)
  end.

(** [do_reload(notify)]. *)
Definition do_reload (notify : bool) : M number unit :=
  data ← load_events;
  wf.cache_data data ;;
  (match events data with
   | Some (e :: rest) => generate_icons (e :: rest)
   | _ => ret tt
   end) ;;
  if notify then util.run_trigger "notify" else ret tt.

(** [do_force_reload()]. *)
Definition do_force_reload : M number unit :=
  busy ← background.is_running "reload";
  if negb busy then
    script ← gets argv0;
    background.run_in_background "reload" [script; "--reload"; "--notify"]
  else ret tt.

(** [do_show_event(calendar_name, event_id)]. *)
Definition do_show_event (calendar_name event_id : option string)
    : M number unit :=
  util.run_command ["/usr/bin/osascript"; "ShowEvent.scpt";
                    from_option id "" calendar_name;
                    from_option id "" event_id].

(** [main], lines 216-219: start the refresh unless the cache is fresh
    or a reload is running; the value is the local [reloading]. *)
Definition refresh_if_stale : M number bool :=
  reloading ← background.is_running "reload";
  fresh ← wf.cached_data_fresh (MAX_CACHE_AGE cfg);
  if negb fresh && negb reloading then
    script ← gets argv0;
    background.run_in_background "reload" [script; "--reload"] ;;
    ret true
  else ret reloading.

(** [main], lines 226-235: the placeholder shown without cached data. *)
Definition no_data (reloading : bool) : M number unit :=
  (if reloading then
     wf.add_item "Loading Events…" "Results should appear momentarily"
                 None false (Some ICON_INFO)
   else
     wf.add_item "No Data" "Workflow could not load calendar data"
                 None false (Some ICON_WARNING)) ;;
  wf.send_feedback.

(** [main], lines 252-261: the item of one event. *)
Definition add_event_item (icons : Icons.t) (d : Event number)
    : M number unit :=
  let subtitle :=
    strftime (start_date d) "%H:%M" +:+ "–" +:+
    strftime (end_date d) "%H:%M" +:+ " on " +:+
    strftime (start_date d) "%Y-%m-%d" +:+ " // " +:+
    calendar d +:+ " (" +:+ account d +:+ ")" in
  icon ← Icons.get_icon icons (colour d) None;
  it ← wf.add_item (title d) subtitle (Some (url d)) true icon;
  wf.setvar it "calendar_name" (calendar d) ;;
  wf.setvar it "event_id" (uid d).

(** [main], lines 264-269: the reload action. *)
Definition offer_reload (query : string) : M number unit :=
  if (1 <? String.length query)%nat && Py.startswith "reload" query then
    wf.add_item "Reload Events" "Update cached events from Calendar database"
                (Some "reload") true (Some "reload.png") ;;
    ret tt
  else ret tt.

(** [main], lines 239-273: what is shown for a cached dictionary. *)
Definition show_events (query : string) (d : Dataset number)
    : M number unit :=
  if Py.truthy (error d) then
    raise (RuntimeError (from_option id "" (error d)))
  else
    all ← lift (match events d with
                | Some l => Return l
                | None => Raise (KeyError "events")
                end);
    evs ← filter_events all;
    let evs := if negb (String.eqb query "") then wf_filter query evs
               else evs in
    dir ← wf.cachefile "icons";
    let icons := Icons.init dir in
    for_each evs (add_event_item icons) ;;
    offer_reload query ;;
    wf.warn_empty (if negb (String.eqb query "")
                   then "No Matching Events" else "No Video Conferences") ;;
    wf.send_feedback.

(** [main], lines 213-273: the search branch. *)
Definition search_events (query : string) : M number unit :=
  reloading ← refresh_if_stale;
  (if reloading then wf.set_rerun 0.2%Q else ret tt) ;;
  data ← wf.cached_data 0;
  match data with
  | Some d =>
      if negb (data_truthy data) then no_data reloading
      else show_events query d
  | None => no_data reloading
  end.

(** [main(wf)], once the configuration is loaded. *)
Definition main (args : Args) : M number unit :=
  if Py.truthy (opt_calendar args) then
    do_show_event (opt_calendar args) (opt_event args)
  else if opt_reload args then do_reload (opt_notify args)
  else if opt_force_reload args then do_force_reload
  else search_events (from_option id "" (Py.or_ (arg_query args) (Some ""))).

(** The [__main__] block: [main] on a new [Workflow3] object.  The
    exception handler of [wf.run] is left out: a raised exception is the
    outcome. *)
Definition run_main (args : Args) (w : World number)
    : result unit * World number :=
  main args (wf.Workflow3 w).
End Script.

(** The command lines of the four modes. *)
Definition query_args (query : option string) : Args :=
  mkArgs None None false false false query.
Definition reload_args (notify : bool) : Args :=
  mkArgs None None true notify false None.

(** The synthetic item offered for a query that matches [reload]. *)
Definition reload_item : Item :=
  mkItem "Reload Events" "Update cached events from Calendar database"
         (Some "reload") true (Some "reload.png") [].

Global Instance Item_eq_dec : EqDecision Item.
Proof. solve_decision. Defined.

(** ** Concrete inputs *)

Module Demo.

(** A library instance to run the scripts with: titles are matched by
    prefix, dates print as their number. *)
Global Instance externals : Externals Z := {|
  wf_filter := λ q evs, filter (λ e, String.prefix q (title e) = true) evs;
  strftime := λ d _, Py.str d;
  ICON_INFO := "ToolbarInfo.icns";
  ICON_WARNING := "AlertCautionIcon.icns"
|}.

Definition is_space (c : ascii) : bool :=
  match c with
  | " " | "009" | "010" | "011" | "012" | "013" => true
  | _ => false
  end%char.

Fixpoint take_nonspace (s : string) : string :=
  match s with
  | "" => ""
  | String c rest => if is_space c then "" else String c (take_nonspace rest)
  end.

Fixpoint drop (n : nat) (s : string) : string :=
  match n, s with
  | S n, String _ rest => drop n rest
  | _, _ => s
  end.

(** Leftmost match of the pattern [lit\S+], for a literal [lit]. *)
Fixpoint find_link (lit s : string) : option string :=
  let here :=
    if String.prefix lit s
    then take_nonspace (drop (String.length lit) s) else "" in
  if negb (String.eqb here "") then Some (lit +:+ here)
  else match s with
       | "" => None
       | String _ rest => find_link lit rest
       end.

Definition meet : Pattern := mkPattern (find_link "https://meet.example/").
Definition zoom : Pattern := mkPattern (find_link "https://zoom.example/").

Definition cfg : Config :=
  mkConfig 600 7 {["Work"]} ∅ [zoom; meet].

Definition green : list Z := [0; 0; 0; 1]%Z.

Definition standup : Event Z :=
  mkEvent "Standup" 5000%Z 6000%Z "Work" "Team"
          "Join at https://meet.example/abc" "Room 1" "see https://zoom.example/x"
          green "uid-1".

Definition lunch : Event Z :=
  mkEvent "Lunch" 5000%Z 6000%Z "Work" "Team" "" "Canteen" "" green "uid-2".

(** The stand-up again, in an account outside the allow-list. *)
Definition personal : Event Z :=
  mkEvent "Standup" 5000%Z 6000%Z "Personal" "Team"
          "Join at https://meet.example/abc" "Room 1" "" green "uid-3".

Definition good : Dataset Z := mkDataset (Some [standup; lunch]) None.

(** A Dataset whose error key holds the empty string. *)
Definition blank_error : Dataset Z := mkDataset (Some [standup]) (Some "").
Definition denied : Dataset Z :=
  mkDataset None (Some "Access to calendars denied").

(** Nothing cached, nothing running, an empty icon directory. *)
Definition empty_world : World Z :=
  mkWorld 1000%Z "video-conferences.py" "/cache" (Return good) None ∅ [] ∅
          [] [] [] [] 0%Q false.

(** A cache written at time 900, read at time 1000. *)
Definition cached (d : Dataset Z) : World Z :=
  set_events_cache (Some (d, 900%Z)) empty_world.

(** The same with a reload job running. *)
Definition reloading_world : World Z :=
  set_jobs {["reload"]} [("reload", ["video-conferences.py"; "--reload"])]
           (cached good).

(** A good Dataset is cached, and the next fetch is denied. *)
Definition denied_fetch : World Z :=
  mkWorld 1000%Z "video-conferences.py" "/cache" (Return denied)
          (Some (good, 900%Z)) ∅ [] ∅ [] [] [] [] 0%Q false.

Definition icons : Icons.t := Icons.init "/cache/icons".

End Demo.

(** ** Notions used to state the properties *)

(** No separator occurs in [s]. *)
Fixpoint no_sep (s : string) : bool :=
  match s with
  | "" => true
  | String c rest => negb (posixpath.is_sep c) && no_sep rest
  end.

(** A path segment: not empty and free of separators. *)
Definition segment (s : string) : Prop := s ≠ "" ∧ no_sep s = true.

(** A root directory as [os.path.join] prefixes it to a relative path: a
    separator is added unless the root is empty or already ends in one. *)
Definition under (root : string) : string :=
  if String.eqb root "" || Py.endswith root "/" then root else root +:+ "/".

(** The path that the formula "root / component1 / component2 / component3 /
    component4.png" of the specification describes. *)
Definition formula_icon_path {number} `{!PyHash number} (root : string)
    (r g b a : number) : string :=
  posixpath.join root
    [Py.str (hash r); Py.str (hash g); Py.str (hash b);
     Py.str (hash a) +:+ ".png"].

(** Every run of [m] takes a world to one related to it by [R]. *)
Definition within {number A} (R : relation (World number)) (m : M number A)
    : Prop :=
  ∀ w, R w (m w).2.

(** The second world differs from the first in the feedback items and the
    sent flag at most. *)
Definition ui_change {number} : relation (World number) :=
  λ w w', ∃ its sent, w' = set_feedback_sent sent (set_items its w).

(** The second world differs from the first in the icon directory and the
    log of the renderer at most. *)
Definition icon_change {number} : relation (World number) :=
  λ w w', ∃ tree log, w' = set_renders log (set_fs tree w).

(** A property of the world that holds afterwards if it held before. *)
Definition stable {number} (P : World number → Prop) : relation (World number) :=
  λ w w', P w → P w'.

(** The queries that are prefixes of [reload] of two characters or more. *)
Definition reload_queries : list string :=
  ["re"; "rel"; "relo"; "reloa"; "reload"].

(** The value of the local [reloading] of [main] after lines 216-219. *)
Definition reloading_after {number} (cfg : Config) (w : World number) : bool :=
  negb (bool_decide (is_Some (wf.load (MAX_CACHE_AGE cfg) w)))
  || bool_decide ("reload" ∈ running w).

(** The world after lines 216-222 of [main]. *)
Definition after_refresh {number} (cfg : Config) (w : World number)
    : World number :=
  let started :=
    if negb (bool_decide (is_Some (wf.load (MAX_CACHE_AGE cfg) w)))
       && negb (bool_decide ("reload" ∈ running w))
    then set_jobs ({["reload"]} ∪ running w)
                  (launched w ++ [("reload", [argv0 w; "--reload"])]) w
    else w in
  if reloading_after cfg w then set_rerun 0.2%Q started else started.

(** [m] is the text found by the first pattern, in the order of [rxs], that
    matches the first candidate, in the order of [candidates], matched by
    any pattern. *)
Definition first_match (rxs : list Pattern) (candidates : list string)
    (m : string) : Prop :=
  ∃ (i j : nat) s rx,
    candidates !! i = Some s ∧ rxs !! j = Some rx ∧ search rx s = Some m ∧
    (∀ (i' : nat) s' rx', (i' < i)%nat → candidates !! i' = Some s' →
       rx' ∈ rxs → search rx' s' = None) ∧
    (∀ (j' : nat) rx', (j' < j)%nat → rxs !! j' = Some rx' →
       search rx' s = None).

(** Some pattern matches some candidate. *)
Definition some_match (rxs : list Pattern) (candidates : list string) : Prop :=
  ∃ s rx, s ∈ candidates ∧ rx ∈ rxs ∧ is_Some (search rx s).

(** The three conditions under which an event is wanted at time [now]. *)
Definition wanted {number} (cfg : Config) (now : datetime)
    (event : Event number) : Prop :=
  (now ≤ end_date event)%Z ∧
  (ACCOUNTS cfg ≠ ∅ → account event ∈ ACCOUNTS cfg) ∧
  (CALENDARS cfg ≠ ∅ → calendar event ∈ CALENDARS cfg) ∧
  some_match (REGEXES cfg) [url event; location event; notes event].

(** Two events that agree on every field but [url]. *)
Definition same_but_url {number} (e e' : Event number) : Prop :=
  title e' = title e ∧ start_date e' = start_date e ∧
  end_date e' = end_date e ∧ account e' = account e ∧
  calendar e' = calendar e ∧ location e' = location e ∧
  notes e' = notes e ∧ colour e' = colour e ∧ uid e' = uid e.

(** The verdict of [event_filter] and the event after the call, as functions
    of the configuration and the clock. *)
Definition verdict {number} (cfg : Config) (now : datetime)
    (event : Event number) : bool * Event number :=
  if (end_date event <? now)%Z then (false, event)
  else if bool_decide (ACCOUNTS cfg ≠ ∅)
          && negb (bool_decide (account event ∈ ACCOUNTS cfg))
  then (false, event)
  else if bool_decide (CALENDARS cfg ≠ ∅)
          && negb (bool_decide (calendar event ∈ CALENDARS cfg))
  then (false, event)
  else match search_candidates (REGEXES cfg)
               [url event; location event; notes event] with
       | Some m => (true, set_url m event)
       | None => (false, event)
       end.

(** ** video-conferences.py: the configuration *)

(** What [load_config] takes from the interpreter: [int] applied to a
    string, and [re.compile(v, re.IGNORECASE)]. *)
Class Builtins := {
  py_int : string → result Z;
  re_compile : string → result Pattern
}.

(** [os.getenv(name)], the environment given as the pairs of
    [os.environ.items()]. *)
Fixpoint getenv (env : list (string * string)) (name : string)
    : option string :=
  match env with
  | [] => None
  | (k, v) :: rest => if String.eqb k name then Some v else getenv rest name
  end.

(** [int(os.getenv(name) or current)]: [int] of an integer is the integer. *)
Definition int_setting `{!Builtins} (value : option string) (current : Z)
    : result Z :=
  match value with
  | Some text => if negb (String.eqb text "") then py_int text
                 else Return current
  | None => Return current
  end.

(** The body of the loop of [load_config], lines 70-85, for one variable.
    An exception of [re.compile] is caught and the variable skipped. *)
Definition load_variable `{!Builtins} (cfg : Config) (kv : string * string)
    : Config :=
  let k := kv.1 in
  let v := kv.2 in
  if Py.startswith k "account_" && negb (String.eqb v "") then
    mkConfig (MAX_CACHE_AGE cfg) (LOOKAHEAD_DAYS cfg)
             ({[v]} ∪ ACCOUNTS cfg) (CALENDARS cfg) (REGEXES cfg)
  else if Py.startswith k "calendar_" && negb (String.eqb v "") then
    mkConfig (MAX_CACHE_AGE cfg) (LOOKAHEAD_DAYS cfg)
             (ACCOUNTS cfg) ({[v]} ∪ CALENDARS cfg) (REGEXES cfg)
  else if Py.startswith k "regex_" then
    match re_compile v with
    | Return rx =>
        mkConfig (MAX_CACHE_AGE cfg) (LOOKAHEAD_DAYS cfg)
                 (ACCOUNTS cfg) (CALENDARS cfg) (REGEXES cfg ++ [rx])
    | Raise _ => cfg
    end
  else cfg.

(** [load_config()]: the module globals [globals] updated from the
    environment, or the exception of a failed [int]. *)
Definition load_config `{!Builtins} (env : list (string * string))
    (globals : Config) : result Config :=
  match int_setting (getenv env "max_cache_seconds") (MAX_CACHE_AGE globals) with
  | Raise e => Raise e
  | Return age =>
      match int_setting (getenv env "lookahead_days")
                        (LOOKAHEAD_DAYS globals) with
      | Raise e => Raise e
      | Return days =>
          Return (fold_left load_variable env
                    (mkConfig age days (ACCOUNTS globals) (CALENDARS globals)
                              (REGEXES globals)))
      end
  end.

(** The command line of [--force-reload]. *)
Definition force_reload_args : Args :=
  mkArgs None None false false true None.

(** ** Notions used to state further properties *)

(** The icon directory of the workflow. *)
Definition icon_store {number} (w : World number) : Icons.t :=
  Icons.init (posixpath.join (cachedir w) ["icons"]).

(** The icon shown for an event: the value of [icons.get_icon(d['colour'])]
    in the world [w]. *)
Definition icon_for {number} `{!PyHash number} (w : World number)
    (d : Event number) : option string :=
  match (Icons.get_icon (icon_store w) (colour d) None w).1 with
  | Return icon => icon
  | Raise _ => None
  end.

(** The feedback item of an event, with both variables set. *)
Definition event_item {number} `{!PyHash number} `{!Externals number}
    (w : World number) (d : Event number) : Item :=
  mkItem (title d)
         (strftime (start_date d) "%H:%M" +:+ "–" +:+
          strftime (end_date d) "%H:%M" +:+ " on " +:+
          strftime (start_date d) "%Y-%m-%d" +:+ " // " +:+
          calendar d +:+ " (" +:+ account d +:+ ")")
         (Some (url d)) true (icon_for w d)
         [("calendar_name", calendar d); ("event_id", uid d)].

(** The item of [wf.warn_empty(title)]. *)
Definition warning_item {number} `{!Externals number} (title : string) : Item :=
  mkItem title "" None false (Some ICON_WARNING) [].

(** The placeholder of a query made while the first refresh runs. *)
Definition loading_item {number} `{!Externals number} : Item :=
  mkItem "Loading Events…" "Results should appear momentarily"
         None false (Some ICON_INFO) [].

(** The feedback of a query that reaches the result list showing the
    events [shown]. *)
Definition listing {number} `{!PyHash number} `{!Externals number}
    (w : World number) (query : string) (shown : list (Event number))
    : list Item :=
  let found :=
    ((event_item w <$> shown) ++
     (if bool_decide (query ∈ reload_queries) then [reload_item] else []))%list in
  match found with
  | [] => [warning_item (number:=number)
             (if negb (String.eqb query "") then "No Matching Events"
              else "No Video Conferences")]
  | _ => found
  end.

(** A library for concrete runs of [load_config]: decimal digits are
    integers, a pattern compiles unless it is an unclosed bracket. *)
Module DemoConfig.

Global Instance builtins : Builtins := {|
  py_int := λ s,
    match NilZero.int_of_string s with
    | Some d => Return (Z.of_int d)
    | None => Raise (ValueError "invalid literal for int()")
    end;
  re_compile := λ s,
    if String.eqb s "[" then Raise (ValueError "unterminated character set")
    else Return (mkPattern (Demo.find_link s))
|}.

Definition env : list (string * string) :=
  [("max_cache_seconds", "300"); ("account_1", "Work"); ("account_2", "");
   ("regex_bad", "["); ("regex_meet", "https://meet.example/");
   ("calendar_1", "Team"); ("PATH", "/usr/bin")].

End DemoConfig.

(** The entries of the icon directory of the first world are there,
    unchanged, in the second. *)
Definition icons_kept {number} : relation (World number) :=
  λ w w', ∀ p n, fs w !! p = Some n → fs w' !! p = Some n.

(** The loop of [generate_icons] over the colours. *)
Definition create_each {number} `{!PyHash number} (icons : Icons.t)
    (colours : list (list number)) : M number unit :=
  for_each colours (λ c, Icons.create_icon icons c None ;; ret tt).

(** The icon step of [do_reload], lines 168-169, for a fetched dictionary. *)
Definition icon_step {number} `{!PyHash number} (data : Dataset number)
    : M number unit :=
  match events data with
  | Some (e :: rest) => generate_icons (e :: rest)
  | _ => ret tt
  end.

(** The events [filter] keeps, each as [event_filter] leaves it. *)
Definition kept_of {number} (cfg : Config) (now : datetime)
    (evs : list (Event number)) : list (Event number) :=
  omap (λ e, if (verdict cfg now e).1 then Some (verdict cfg now e).2
             else None) evs.

(** The pattern a variable contributes: the compiled value of a [regex_]
    variable that compiles, nothing otherwise. *)
Definition compiled `{!Builtins} (kv : string * string) : option Pattern :=
  if Py.startswith kv.1 "regex_" then
    match re_compile kv.2 with
    | Return rx => Some rx
    | Raise _ => None
    end
  else None.

(** More concrete inputs. *)
Module Scenes.

(** An icon object without any template. *)
Definition bare : Icons.t := Icons.mk "/cache/icons" (Some "icon.png") None.

(** The world after a first reload: the icon of [Demo.green] is there. *)
Definition stocked : World Z :=
  (do_reload Demo.cfg false Demo.empty_world).2.

(** A cached dictionary with an empty error message and no events. *)
Definition keyless : Dataset Z := mkDataset None (Some "").

(** A configuration without patterns. *)
Definition no_patterns : Config := mkConfig 600 7 ∅ ∅ [].

End Scenes.

(** * Properties *)

(** ** Strings and paths *)

Section Strings.
Implicit Types a b c s : string.

Lemma append_cons x a b : String x a +:+ b = String x (a +:+ b).
Proof. reflexivity. Qed.

Lemma append_nil_r a : a +:+ "" = a.
Proof. induction a as [|x a IH]; [done|]. by rewrite append_cons, IH. Qed.

Lemma append_assoc a b c : (a +:+ b) +:+ c = a +:+ (b +:+ c).
Proof.
  induction a as [|x a IH]; [done|].
  by rewrite !append_cons, IH.
Qed.

Lemma append_nonempty_r a b : b ≠ "" → a +:+ b ≠ "".
Proof. destruct a; [done | by rewrite append_cons]. Qed.

Lemma eqb_empty_false s : s ≠ "" → String.eqb s "" = false.
Proof. intros. by apply String.eqb_neq. Qed.

Lemma uint_no_sep d : no_sep (NilEmpty.string_of_uint d) = true.
Proof. induction d; simpl; auto. Qed.

Lemma uint_segment d : segment (NilZero.string_of_uint d).
Proof.
  split.
  - by destruct d.
  - destruct d; try done; apply (uint_no_sep (_ d)).
Qed.

Lemma str_segment n : segment (Py.str n).
Proof.
  unfold Py.str, NilZero.string_of_int.
  destruct (Z.to_int n) as [d|d]; [apply uint_segment|].
  split; [done|]. apply (uint_segment d).
Qed.

Lemma is_sep_false x : negb (posixpath.is_sep x) = true → x ≠ "/"%char.
Proof. intros H ->. done. Qed.

Lemma startswith_segment a b : segment a → Py.startswith (a +:+ b) "/" = false.
Proof.
  intros [Hne Hns]. destruct a as [|x a]; [done|].
  rewrite append_cons. simpl in Hns. apply andb_true_iff in Hns as [Hx _].
  apply is_sep_false in Hx. cbn [Py.startswith].
  destruct (Ascii.eqb_spec "/" x) as [<-|]; done.
Qed.

Lemma endswith_no_sep b : no_sep b = true → Py.endswith b "/" = false.
Proof.
  induction b as [|x b IH]; [done|]. cbn [no_sep Py.endswith String.eqb].
  intros [Hx Hb]%andb_true_iff. rewrite (IH Hb), orb_false_r.
  apply is_sep_false in Hx.
  destruct (Ascii.eqb_spec x "/"); done.
Qed.

Lemma startswith_segment0 a : segment a → Py.startswith a "/" = false.
Proof.
  intros Ha. pose proof (startswith_segment a "" Ha) as H.
  by rewrite append_nil_r in H.
Qed.

Lemma endswith_append a b :
  b ≠ "" → Py.endswith b "/" = false → Py.endswith (a +:+ b) "/" = false.
Proof.
  intros Hne Hb. induction a as [|x a IH]; [done|].
  rewrite append_cons. cbn [Py.endswith String.eqb].
  rewrite IH, orb_false_r.
  destruct (Ascii.eqb x "/"); [|done].
  apply eqb_empty_false. by apply append_nonempty_r.
Qed.

(** [os.path.join] of a non-empty path that does not end in a separator
    with a relative component. *)
Lemma join2_relative p q :
  Py.startswith q "/" = false → p ≠ "" → Py.endswith p "/" = false →
  posixpath.join2 p q = p +:+ "/" +:+ q.
Proof.
  intros Hq Hp He. unfold posixpath.join2.
  by rewrite Hq, He, (eqb_empty_false p Hp).
Qed.

(** [os.path.join] of a root directory with a relative component. *)
Lemma join2_under root q :
  Py.startswith q "/" = false → posixpath.join2 root q = under root +:+ q.
Proof.
  intros Hq. unfold posixpath.join2, under. rewrite Hq.
  destruct (_ || _); [done|]. by rewrite append_assoc.
Qed.
End Strings.

Ltac segments :=
  repeat first
    [ assumption
    | match goal with H : segment ?s |- ?s ≠ "" => exact (proj1 H) end
    | match goal with
      | H : segment ?s |- Py.endswith ?s "/" = false =>
          exact (endswith_no_sep s (proj2 H))
      | H : segment ?s |- Py.startswith ?s "/" = false =>
          exact (startswith_segment0 s H)
      | H : segment ?s |- Py.startswith (?s +:+ _) "/" = false =>
          exact (startswith_segment s _ H)
      end
    | apply append_nonempty_r
    | apply endswith_append
    | discriminate ].


(** ** The icon path *)

Section IconPath.
Context {number : Type} `{!PyHash number}.

(** C7, as amended: for a colour of four components the icon path is the
    root, one directory per component named by the decimal text of the
    component's hash, and a file whose stem is the four texts joined by
    [-]: root / h1 / h2 / h3 / h4 / h1-h2-h3-h4.png.  [cache_path] is the
    same path without the root. *)
Theorem icon_path_layout (self : Icons.t) (r g b a : number) :
  let h1 := Py.str (hash r) in
  let h2 := Py.str (hash g) in
  let h3 := Py.str (hash b) in
  let h4 := Py.str (hash a) in
  let relative :=
    h1 +:+ "/" +:+ h2 +:+ "/" +:+ h3 +:+ "/" +:+ h4 +:+ "/" +:+
    h1 +:+ "-" +:+ h2 +:+ "-" +:+ h3 +:+ "-" +:+ h4 +:+ ".png" in
  Icons._icon_path self [r; g; b; a]
    = Return (under (Icons.dirpath self) +:+ relative) ∧
  Icons.cache_path [r; g; b; a] = Return relative.
Proof.
  intros sr sg sb sa relative. subst relative.
  pose proof (str_segment (hash r)) as Hr.
  pose proof (str_segment (hash g)) as Hg.
  pose proof (str_segment (hash b)) as Hb.
  pose proof (str_segment (hash a)) as Ha.
  fold sr in Hr. fold sg in Hg. fold sb in Hb. fold sa in Ha.
  assert (posixpath.join sr [sg; sb; sa]
          = sr +:+ "/" +:+ sg +:+ "/" +:+ sb +:+ "/" +:+ sa) as Hdir.
  { unfold posixpath.join. cbn [fold_left].
    rewrite (join2_relative sr sg) by segments.
    rewrite (join2_relative _ sb) by (rewrite ?append_assoc; segments).
    rewrite (join2_relative _ sa) by (rewrite ?append_assoc; segments).
    by rewrite !append_assoc. }
  unfold Icons._icon_path, Icons.cache_path. cbn [map Py.join].
  fold sr sg sb sa. rewrite Hdir. unfold posixpath.join. cbn [fold_left].
  split; f_equal.
  - rewrite (join2_under (Icons.dirpath self))
      by (rewrite ?append_assoc; segments).
    rewrite join2_relative by (rewrite ?append_assoc; segments).
    by rewrite !append_assoc.
  - rewrite join2_relative by (rewrite ?append_assoc; segments).
    by rewrite !append_assoc.
Qed.
End IconPath.

(** C7, as stated, fails: with the root [/cache/icons] and the colour
    (0, 0, 0, 1) the script's path is [/cache/icons/0/0/0/1/0-0-0-1.png],
    not [/cache/icons/0/0/0/1.png]. *)
Lemma icon_path_not_formula :
  ¬ (∀ (self : Icons.t) (r g b a : Z),
       Icons._icon_path self [r; g; b; a]
       = Return (formula_icon_path (Icons.dirpath self) r g b a)).
Proof.
  intros H. specialize (H Demo.icons 0%Z 0%Z 0%Z 1%Z).
  vm_compute in H. discriminate H.
Qed.

(** ** The icon cache *)

Section IconCache.
Context {number : Type} `{!PyHash number}.
Implicit Types (self : Icons.t) (w : World number) (c : number)
               (cs : list number).

Lemma join2_nonempty p q : q ≠ "" → posixpath.join2 p q ≠ "".
Proof.
  intros Hq. unfold posixpath.join2.
  repeat case_match; try done; by repeat apply append_nonempty_r.
Qed.

(** A colour with at least one component has an icon path, and the path
    is not the empty string. *)
Lemma icon_path_defined self c cs :
  ∃ path, Icons._icon_path self (c :: cs) = Return path ∧ path ≠ "".
Proof.
  unfold Icons._icon_path. cbn [map]. eexists. split; [reflexivity|].
  unfold posixpath.join. cbn [fold_left].
  apply join2_nonempty, append_nonempty_r. discriminate.
Qed.

(** [get_icon] as a function of the icon directory. *)
Lemma get_icon_eq self c cs default w path :
  Icons._icon_path self (c :: cs) = Return path →
  Icons.get_icon self (c :: cs) default w
  = (Return (if bool_decide (is_Some (fs w !! path)) then Some path
             else Py.or_ default (Icons.default self)), w).
Proof. intros Hp. unfold Icons.get_icon, bind, lift. by rewrite Hp. Qed.

(** C5: [create_icon] is idempotent.  With a template configured, the
    first call returns the icon path and leaves an artifact there; the
    second call returns the same path and leaves the world exactly as the
    first call left it, so it neither renders nor writes.  The first call
    renders at most once. *)
Theorem create_icon_idempotent self c cs template w :
  Py.truthy (Py.or_ template (Icons.template self)) = true →
  ∃ path w1,
    Icons._icon_path self (c :: cs) = Return path ∧
    Icons.create_icon self (c :: cs) template w = (Return path, w1) ∧
    Icons.create_icon self (c :: cs) template w1 = (Return path, w1) ∧
    is_Some (fs w1 !! path) ∧
    (length (renders w1) ≤ S (length (renders w)))%nat.
Proof.
  intros Ht. destruct (icon_path_defined self c cs) as (path & Hp & _).
  exists path. unfold Icons.create_icon. rewrite Ht, Hp. cbn [negb].
  unfold bind at 1 2. unfold lift at 1. unfold os.path_exists at 1.
  unfold gets at 1. cbn beta iota.
  destruct (bool_decide (is_Some (fs w !! path))) eqn:Hfound.
  - exists w. unfold ret at 1. split_and!; auto.
    + unfold bind, lift, os.path_exists, gets. by rewrite Hfound.
    + by apply bool_decide_eq_true in Hfound.
  - cbv beta iota delta [bind os.path_exists os.makedirs gets modify ret
                         lift Icons._write_image].
    destruct (negb (bool_decide (is_Some (fs w !! posixpath.dirname path))));
      (eexists; split; [done|]; split; [reflexivity|]);
      cbn [fs renders set_fs set_renders];
      rewrite lookup_insert_eq, bool_decide_eq_true_2 by eauto;
      (split_and!; [done | eauto | rewrite length_app; cbn; lia]).
Qed.

(** C6, as amended: [get_icon] leaves the world as it is, whatever it
    returns; when no artifact exists at the icon path it returns the default
    in effect, [default or self.default]: the caller's [default] when that
    is not falsy, the default of the instance otherwise; when an artifact
    exists it returns the icon path.  It returns the default in effect
    exactly when no artifact exists, unless that default is the icon path
    itself. *)
Theorem get_icon_reads_only self c cs default w :
  ∃ path,
    Icons._icon_path self (c :: cs) = Return path ∧
    (Icons.get_icon self (c :: cs) default w).2 = w ∧
    (fs w !! path = None →
       (Icons.get_icon self (c :: cs) default w).1
       = Return (Py.or_ default (Icons.default self))) ∧
    (is_Some (fs w !! path) →
       (Icons.get_icon self (c :: cs) default w).1 = Return (Some path)) ∧
    (Py.truthy default = true →
       Py.or_ default (Icons.default self) = default) ∧
    (Py.or_ default (Icons.default self) ≠ Some path →
       ((Icons.get_icon self (c :: cs) default w).1
        = Return (Py.or_ default (Icons.default self))
        ↔ fs w !! path = None)) ∧
    (Py.truthy default = false →
       Py.or_ default (Icons.default self) = Icons.default self).
Proof.
  destruct (icon_path_defined self c cs) as (path & Hp & _).
  exists path. rewrite (get_icon_eq _ _ _ _ _ _ Hp). cbn [fst snd].
  split_and!; try done.
  - intros Hnone. rewrite bool_decide_eq_false_2; [done|].
    rewrite Hnone. by intros [? ?].
  - intros Hsome. by rewrite bool_decide_eq_true_2.
  - unfold Py.or_. by intros ->.
  - intros Hne. case_bool_decide as Hfound.
    + split; [intros [=]; congruence|].
      intros Hnone. rewrite Hnone in Hfound. by destruct Hfound.
    + split; [|done]. intros _.
      destruct (fs w !! path) eqn:E; [|done]. destruct Hfound; eauto.
  - unfold Py.or_. by intros ->.
Qed.

(** C9, as amended: a falsy [default] argument ([None] or the empty
    string) acts as no argument at all: without an artifact [get_icon]
    returns the default of the instance.  When the default of the instance
    is not falsy, the value returned is never falsy, so it is not the
    caller's value; an instance built with a falsy default is the one case
    where a falsy value comes back. *)
Theorem get_icon_falsy_default self c cs default w :
  Py.truthy default = false →
  Icons.get_icon self (c :: cs) default w
    = Icons.get_icon self (c :: cs) None w ∧
  ∃ path,
    Icons._icon_path self (c :: cs) = Return path ∧
    (fs w !! path = None →
       (Icons.get_icon self (c :: cs) default w).1
       = Return (Icons.default self)) ∧
    (Py.truthy (Icons.default self) = true →
       ∀ r, (Icons.get_icon self (c :: cs) default w).1 = Return r →
            Py.truthy r = true ∧ r ≠ default).
Proof.
  intros Hfalsy.
  destruct (icon_path_defined self c cs) as (path & Hp & Hne).
  rewrite !(get_icon_eq _ _ _ _ _ _ Hp). unfold Py.or_.
  rewrite Hfalsy. cbn [Py.truthy fst]. split; [done|].
  exists path. split_and!; [done|..].
  - intros Hnone. rewrite bool_decide_eq_false_2; [done|].
    rewrite Hnone. by intros [? ?].
  - intros Hd r [= <-].
    assert (Py.truthy (if bool_decide (is_Some (fs w !! path))
                       then Some path else Icons.default self) = true) as Hr.
    { case_bool_decide; [|done]. cbn. by rewrite eqb_empty_false. }
    split; [done|]. intros Heq. rewrite Heq in Hr. congruence.
Qed.
End IconCache.

(** ** The event filter *)

Section Matching.
Implicit Types (rxs : list Pattern) (s m : string) (cands : list string).

Lemma search_patterns_none rxs s :
  search_patterns rxs s = None ↔ ∀ rx, rx ∈ rxs → search rx s = None.
Proof.
  induction rxs as [|rx rxs IH]; cbn [search_patterns].
  - split; [|done]. intros _ rx Hin. by apply elem_of_nil in Hin.
  - destruct (search rx s) eqn:E.
    + split; [done|]. intros H. rewrite <- E. apply H, list_elem_of_here.
    + rewrite IH. split.
      * intros H rx' [->|Hin]%elem_of_cons; auto.
      * intros H rx' Hin. apply H. by apply list_elem_of_further.
Qed.

Lemma search_patterns_some rxs s m :
  search_patterns rxs s = Some m →
  ∃ (j : nat) rx,
    rxs !! j = Some rx ∧ search rx s = Some m ∧
    ∀ (j' : nat) rx', (j' < j)%nat → rxs !! j' = Some rx' →
                      search rx' s = None.
Proof.
  induction rxs as [|rx rxs IH]; cbn [search_patterns]; [done|].
  destruct (search rx s) eqn:E.
  - intros [= ->]. exists 0%nat, rx. split_and!; [done..|]. lia.
  - intros (j & rx' & Hj & Hm & Hbefore)%IH.
    exists (S j), rx'. split_and!; [done..|].
    intros [|j'] rx'' Hlt Hlook; cbn in Hlook.
    + by injection Hlook as <-.
    + apply (Hbefore j'); [lia | done].
Qed.

Lemma search_candidates_none rxs cands :
  search_candidates rxs cands = None → ¬ some_match rxs cands.
Proof.
  induction cands as [|s cands IH]; cbn [search_candidates].
  - intros _ (s & rx & Hs & _). by apply elem_of_nil in Hs.
  - destruct (search_patterns rxs s) eqn:E; [done|].
    intros Hrest (s' & rx & Hs & Hrx & Hm).
    apply elem_of_cons in Hs as [->|Hs].
    + rewrite (proj1 (search_patterns_none rxs s) E rx Hrx) in Hm.
      by destruct Hm.
    + apply (IH Hrest). by exists s', rx.
Qed.

Lemma search_candidates_some rxs cands m :
  search_candidates rxs cands = Some m → first_match rxs cands m.
Proof.
  induction cands as [|s cands IH]; cbn [search_candidates]; [done|].
  destruct (search_patterns rxs s) eqn:E.
  - intros [= ->].
    apply search_patterns_some in E as (j & rx & Hj & Hm & Hbefore).
    exists 0%nat, j, s, rx. split_and!; [done..| |done]. lia.
  - intros (i & j & s' & rx & Hi & Hj & Hm & Hcands & Hrxs)%IH.
    exists (S i), j, s', rx. split_and!; [done..| |done].
    intros [|i'] s'' rx' Hlt Hlook Hin; cbn in Hlook.
    + injection Hlook as <-.
      by apply (proj1 (search_patterns_none rxs s) E).
    + apply (Hcands i' s'' rx'); [lia | done..].
Qed.

Lemma first_match_some_match rxs cands m :
  first_match rxs cands m → some_match rxs cands.
Proof.
  intros (i & j & s & rx & Hi & Hj & Hm & _).
  exists s, rx. split_and!.
  - by apply list_elem_of_lookup_2 in Hi.
  - by apply list_elem_of_lookup_2 in Hj.
  - by rewrite Hm.
Qed.
End Matching.

Section EventFilter.
Context {number : Type}.
Implicit Types (cfg : Config) (event : Event number) (w : World number).

Lemma event_filter_eq cfg event w :
  event_filter cfg event w = (Return (verdict cfg (clock w) event), w).
Proof.
  unfold event_filter, verdict, bind, gets, ret. cbn beta iota.
  repeat case_match; done.
Qed.

(** C4: the filter keeps an event exactly when its end is not before the
    current time, its account is in the account list unless that list is
    empty, its calendar is in the calendar list unless that list is empty,
    and some pattern matches its url, location or notes.  A kept event has
    its url replaced by the text of the first match: the first of url,
    location, notes that any pattern matches, and the first pattern
    matching that field. *)
Theorem event_filter_keeps_wanted cfg event w :
  ∃ keep event',
    event_filter cfg event w = (Return (keep, event'), w) ∧
    (keep = true ↔ wanted cfg (clock w) event) ∧
    (keep = true →
       first_match (REGEXES cfg)
         [url event; location event; notes event] (url event')).
Proof.
  rewrite event_filter_eq. unfold verdict, wanted.
  destruct (end_date event <? clock w)%Z eqn:Hend.
  { exists false, event. split_and!; [done | | done].
    apply Z.ltb_lt in Hend. split; [done|]. intros [? _]. lia. }
  apply Z.ltb_ge in Hend.
  destruct (bool_decide (ACCOUNTS cfg ≠ ∅)
            && negb (bool_decide (account event ∈ ACCOUNTS cfg))) eqn:Hacc.
  { exists false, event. split_and!; [done | | done].
    apply andb_true_iff in Hacc as [Hne Hout].
    apply bool_decide_eq_true in Hne.
    apply negb_true_iff, bool_decide_eq_false in Hout.
    split; [done|]. intros (_ & Hin & _). exfalso. by apply Hout, Hin. }
  destruct (bool_decide (CALENDARS cfg ≠ ∅)
            && negb (bool_decide (calendar event ∈ CALENDARS cfg))) eqn:Hcal.
  { exists false, event. split_and!; [done | | done].
    apply andb_true_iff in Hcal as [Hne Hout].
    apply bool_decide_eq_true in Hne.
    apply negb_true_iff, bool_decide_eq_false in Hout.
    split; [done|]. intros (_ & _ & Hin & _). exfalso. by apply Hout, Hin. }
  assert (ACCOUNTS cfg ≠ ∅ → account event ∈ ACCOUNTS cfg) as Haccount.
  { intros Hne. apply andb_false_iff in Hacc as [Hacc|Hacc].
    - by apply bool_decide_eq_false in Hacc.
    - by apply negb_false_iff, bool_decide_eq_true in Hacc. }
  assert (CALENDARS cfg ≠ ∅ → calendar event ∈ CALENDARS cfg) as Hcalendar.
  { intros Hne. apply andb_false_iff in Hcal as [Hcal|Hcal].
    - by apply bool_decide_eq_false in Hcal.
    - by apply negb_false_iff, bool_decide_eq_true in Hcal. }
  destruct (search_candidates _ _) as [m|] eqn:Hsearch.
  - exists true, (set_url m event).
    apply search_candidates_some in Hsearch.
    split_and!; [done | | done].
    split; [|done]. intros _. split_and!; try done.
    by apply first_match_some_match in Hsearch.
  - exists false, event. split_and!; [done | | done].
    split; [done|]. intros (_ & _ & _ & Hsome). exfalso.
    by apply search_candidates_none in Hsearch.
Qed.

(** C10: [event_filter] changes nothing but the url of its argument.
    After the call every other field of the event is as before, and an
    event that is rejected, for whichever reason, is as before in every
    field; the call changes nothing else in the world either. *)
Theorem event_filter_changes_only_url cfg event w :
  ∃ keep event',
    event_filter cfg event w = (Return (keep, event'), w) ∧
    same_but_url event event' ∧
    (keep = false → event' = event).
Proof.
  rewrite event_filter_eq. unfold verdict.
  repeat case_match; eexists _, _; (split; [reflexivity|]);
    (split; [by repeat split | done]).
Qed.
End EventFilter.

(** ** Reasoning about the monad *)

Section Monad.
Context {number : Type}.
Implicit Types (w : World number) (R : relation (World number)).

Lemma within_ret {A} R `{!Reflexive R} (a : A) : within R (ret a).
Proof. intros w. unfold within. cbn. reflexivity. Qed.

Lemma within_raise {A} R `{!Reflexive R} e : within R (raise (A:=A) e).
Proof. intros w. unfold within. cbn. reflexivity. Qed.

Lemma within_lift {A} R `{!Reflexive R} (r : result A) : within R (lift r).
Proof. intros w. unfold within. cbn. reflexivity. Qed.

Lemma within_gets {A} R `{!Reflexive R} (f : World number → A) :
  within R (gets f).
Proof. intros w. unfold within. cbn. reflexivity. Qed.

Lemma within_bind {A B} R `{!Transitive R} (m : M number A)
    (k : A → M number B) :
  within R m → (∀ a, within R (k a)) → within R (bind m k).
Proof.
  intros Hm Hk w. unfold bind. specialize (Hm w).
  destruct (m w) as [[a|e] w1]; cbn [snd] in *; [|done].
  trans w1; [done | apply Hk].
Qed.

Lemma within_for_each {A} R `{!PreOrder R} (l : list A)
    (body : A → M number unit) :
  (∀ x, within R (body x)) → within R (for_each l body).
Proof.
  intros Hbody. induction l as [|x l IH]; cbn [for_each].
  - apply within_ret, _.
  - apply within_bind; [apply _ | apply Hbody | done].
Qed.

Global Instance ui_change_preorder : PreOrder (@ui_change number).
Proof.
  split.
  - intros [ ]. by eexists _, _.
  - intros w1 w2 w3 (its & sent & ->) (its' & sent' & ->).
    by exists its', sent'.
Qed.

Global Instance icon_change_preorder : PreOrder (@icon_change number).
Proof.
  split.
  - intros [ ]. by eexists _, _.
  - intros w1 w2 w3 (t & l & ->) (t' & l' & ->).
    by exists t', l'.
Qed.

Global Instance stable_preorder P : PreOrder (@stable number P).
Proof.
  split; [intros w HP; exact HP|].
  intros w1 w2 w3 H1 H2 HP. apply H2, H1, HP.
Qed.
End Monad.

(** ** What the script functions change *)

Section Footprints.
Context {number : Type} `{!PyHash number} `{!Externals number}.
Implicit Types (w : World number) (cfg : Config) (d : Event number).

Lemma get_icon_world self colour default w :
  (Icons.get_icon self colour default w).2 = w.
Proof.
  unfold Icons.get_icon, bind, lift, os.path_exists, gets, ret.
  by destruct (Icons._icon_path self colour).
Qed.

Lemma create_icon_icon_change self colour template :
  within icon_change (Icons.create_icon self colour template).
Proof.
  intros w. unfold Icons.create_icon.
  destruct (negb _); [reflexivity|].
  cbv beta iota delta [bind os.path_exists os.makedirs gets modify ret lift
                       raise Icons._write_image].
  destruct (Icons._icon_path self colour); [|reflexivity].
  destruct (bool_decide (is_Some (fs w !! a))); [reflexivity|].
  destruct (negb _); cbn [snd]; by eexists _, _.
Qed.

Lemma generate_icons_icon_change (evs : list (Event number)) :
  within icon_change (generate_icons evs).
Proof.
  unfold generate_icons.
  apply within_bind; [apply _ | apply within_gets, _ |]. intros dir.
  apply within_for_each; [apply _|]. intros c.
  apply within_bind; [apply _ | apply create_icon_icon_change |].
  intros _. apply within_ret, _.
Qed.

Lemma filter_events_eq cfg evs w :
  ∃ kept, filter_events cfg evs w = (Return kept, w).
Proof.
  induction evs as [|e evs [kept IH]]; cbn [filter_events].
  - by eexists.
  - unfold bind. rewrite event_filter_eq, IH. by eexists.
Qed.

Lemma add_item_ui_change title subtitle arg valid icon :
  within (@ui_change number) (wf.add_item title subtitle arg valid icon).
Proof. intros w. by eexists _, _. Qed.

Lemma send_feedback_ui_change : within (@ui_change number) wf.send_feedback.
Proof. intros w. destruct w. by eexists _, _. Qed.

Lemma setvar_ui_change it name value :
  within (@ui_change number) (wf.setvar it name value).
Proof. intros w. by eexists _, _. Qed.

Lemma warn_empty_ui_change title :
  within (@ui_change number) (wf.warn_empty title).
Proof.
  unfold wf.warn_empty.
  apply within_bind; [apply _ | apply within_gets, _ |]. intros n.
  destruct (n =? 0)%nat; [|apply within_ret, _].
  apply within_bind; [apply _ | apply add_item_ui_change |].
  intros _. apply within_ret, _.
Qed.

Lemma no_data_ui_change reloading :
  within (@ui_change number) (no_data reloading).
Proof.
  unfold no_data.
  apply within_bind; [apply _ | | intros _; apply send_feedback_ui_change].
  destruct reloading; apply add_item_ui_change.
Qed.

Lemma offer_reload_ui_change query :
  within (@ui_change number) (offer_reload query).
Proof.
  unfold offer_reload. destruct (_ && _); [|apply within_ret, _].
  apply within_bind; [apply _ | apply add_item_ui_change |].
  intros _. apply within_ret, _.
Qed.

Lemma add_event_item_ui_change icons d :
  within (@ui_change number) (add_event_item icons d).
Proof.
  unfold add_event_item.
  apply within_bind; [apply _ | |].
  { intros w. rewrite get_icon_world. reflexivity. }
  intros icon. apply within_bind; [apply _ | apply add_item_ui_change |].
  intros it. apply within_bind; [apply _ | apply setvar_ui_change |].
  intros _. apply setvar_ui_change.
Qed.

Lemma show_events_ui_change cfg query (data : Dataset number) :
  within (@ui_change number) (show_events cfg query data).
Proof.
  unfold show_events. destruct (Py.truthy _); [apply within_raise, _|].
  apply within_bind; [apply _ | apply within_lift, _ |]. intros all.
  apply within_bind; [apply _ | |].
  { intros w. destruct (filter_events_eq cfg all w) as [kept ->].
    reflexivity. }
  intros evs. apply within_bind; [apply _ | apply within_gets, _ |].
  intros dir. apply within_bind; [apply _ | |].
  { apply within_for_each; [apply _|]. apply add_event_item_ui_change. }
  intros _. apply within_bind; [apply _ | apply offer_reload_ui_change |].
  intros _. apply within_bind; [apply _ | apply warn_empty_ui_change |].
  intros _. apply send_feedback_ui_change.
Qed.

(** The search branch: the refresh decision, then the display. *)
Lemma search_events_eq cfg query w :
  search_events cfg query w =
  match wf.load 0 w with
  | Some data =>
      if data_truthy (Some data)
      then show_events cfg query data (after_refresh cfg w)
      else no_data (reloading_after cfg w) (after_refresh cfg w)
  | None => no_data (reloading_after cfg w) (after_refresh cfg w)
  end.
Proof.
  assert (wf.load 0 (after_refresh cfg w) = wf.load 0 w) as Hload.
  { unfold after_refresh. by repeat case_match. }
  rewrite <- Hload. clear Hload.
  unfold search_events, refresh_if_stale, after_refresh, reloading_after.
  cbv beta iota delta [bind background.is_running wf.cached_data_fresh
    wf.cached_data background.run_in_background wf.set_rerun gets modify
    ret].
  destruct (bool_decide (is_Some (wf.load (MAX_CACHE_AGE cfg) w)));
    destruct (bool_decide ("reload" ∈ running w)) eqn:Hr;
    cbn [negb andb orb fst snd]; rewrite ?Hr; cbn [negb andb orb];
    (destruct (wf.load 0 _) as [data|]; [|done]);
    by destruct (data_truthy (Some data)).
Qed.

Lemma search_events_footprint cfg query w :
  ui_change (after_refresh cfg w) (search_events cfg query w).2.
Proof.
  rewrite search_events_eq.
  repeat case_match;
    first [apply show_events_ui_change | apply no_data_ui_change].
Qed.
End Footprints.

(** ** Refreshing the event cache *)

Section Refresh.
Context {number : Type} `{!PyHash number} `{!Externals number}.
Implicit Types (w : World number) (cfg : Config).

Lemma query_text (query : option string) :
  from_option id "" (Py.or_ query (Some "")) = from_option id "" query.
Proof.
  destruct query as [q|]; [|done]. unfold Py.or_, Py.truthy.
  destruct (String.eqb_spec q ""); by subst.
Qed.

Lemma run_main_query cfg query w :
  run_main cfg (query_args query) w
  = search_events cfg (from_option id "" query) (wf.Workflow3 w).
Proof. unfold run_main, main. cbn. by rewrite query_text. Qed.

(** What follows the cache write in [do_reload] leaves the cache alone. *)
Lemma reload_tail_cache (data : Dataset number) (notify : bool) w :
  events_cache
    (((match events data with
       | Some (e :: rest) => generate_icons (e :: rest)
       | _ => ret tt
       end) ;;
      if notify then util.run_trigger "notify" else ret tt) w).2
  = events_cache w.
Proof.
  set (m := match events data with
            | Some (e :: rest) => generate_icons (e :: rest)
            | _ => ret tt
            end).
  assert (icon_change w (m w).2) as Hicons.
  { subst m. destruct (events data) as [[|e rest]|];
      first [apply generate_icons_icon_change | reflexivity]. }
  unfold bind. destruct (m w) as [[[]|e] w2]; cbn [snd] in *;
    destruct Hicons as (tree & log & ->); [|done].
  by destruct notify.
Qed.

Lemma load_events_eq cfg w :
  load_events cfg w
  = (source w,
     set_commands (commands w ++ [["/usr/bin/osascript"; "CalendarEvents.scpt";
                                   Py.str (LOOKAHEAD_DAYS cfg)]]) w).
Proof. done. Qed.

Lemma do_reload_eq cfg notify w :
  do_reload cfg notify w =
  let w1 :=
    set_commands (commands w ++ [["/usr/bin/osascript"; "CalendarEvents.scpt";
                                  Py.str (LOOKAHEAD_DAYS cfg)]]) w in
  match source w with
  | Return data =>
      ((match events data with
        | Some (e :: rest) => generate_icons (e :: rest)
        | _ => ret tt
        end) ;;
       if notify then util.run_trigger "notify" else ret tt)
        (set_events_cache (Some (data, clock w)) w1)
  | Raise e => (Raise e, w1)
  end.
Proof.
  unfold do_reload. unfold bind at 1. rewrite load_events_eq.
  by destruct (source w).
Qed.

(** C1, as amended: a refresh whose fetch returns a Dataset overwrites the
    cached entry with that Dataset and stamps it with the current time,
    whether or not the Dataset carries an error.  The entry is left as it
    was only when the fetch itself ends in an exception. *)
Theorem do_reload_overwrites_cache cfg notify w :
  (∀ data, source w = Return data →
     events_cache (do_reload cfg notify w).2 = Some (data, clock w)) ∧
  (∀ e, source w = Raise e →
     (do_reload cfg notify w).1 = Raise e ∧
     events_cache (do_reload cfg notify w).2 = events_cache w).
Proof.
  rewrite do_reload_eq. split.
  - intros data ->. by rewrite reload_tail_cache.
  - by intros e ->.
Qed.

(** C3: when the cached Dataset has an error (a message that is not empty,
    which is what [data.get('error')] tests), a query ends in a
    [RuntimeError] with that message, no item is added and no feedback is
    sent, whatever the age of the cache and whatever events it holds. *)
Theorem cached_error_is_raised cfg query w data stamp msg :
  events_cache w = Some (data, stamp) →
  error data = Some msg → msg ≠ "" →
  (run_main cfg (query_args query) w).1 = Raise (RuntimeError msg) ∧
  items (run_main cfg (query_args query) w).2 = [] ∧
  feedback_sent (run_main cfg (query_args query) w).2 = false.
Proof.
  intros Hcache Herr Hmsg. rewrite run_main_query, search_events_eq.
  assert (wf.load 0 (wf.Workflow3 w) = Some data) as ->.
  { unfold wf.load. cbn [events_cache wf.Workflow3 set_feedback_sent
      set_rerun set_items]. by rewrite Hcache. }
  assert (data_truthy (Some data) = true) as ->.
  { unfold data_truthy. rewrite Herr. by destruct (events data). }
  unfold show_events, Py.truthy. rewrite Herr.
  rewrite (eqb_empty_false msg Hmsg). cbn [negb from_option id raise fst snd].
  unfold after_refresh. by repeat case_match.
Qed.

(** The three cases of the refresh decision of a query. *)
Lemma refresh_decision cfg query w :
  let out := (run_main cfg (query_args query) w).2 in
  let fresh := (wf.cached_data_fresh (MAX_CACHE_AGE cfg) w).1 in
  (fresh = Return false → "reload" ∉ running w →
     launched out
       = (launched w ++ [("reload", [argv0 w; "--reload"])])%list ∧
     "reload" ∈ running out ∧ rerun out = 0.2%Q) ∧
  ("reload" ∈ running w →
     launched out = launched w ∧ running out = running w ∧
     rerun out = 0.2%Q) ∧
  (fresh = Return true → "reload" ∉ running w →
     launched out = launched w ∧ running out = running w ∧
     rerun out = 0%Q).
Proof.
  intros out fresh. subst out fresh. rewrite run_main_query.
  destruct (search_events_footprint cfg (from_option id "" query)
              (wf.Workflow3 w)) as (its & sent & ->).
  unfold after_refresh, reloading_after, wf.cached_data_fresh, gets.
  cbn [fst].
  assert (wf.load (MAX_CACHE_AGE cfg) (wf.Workflow3 w)
          = wf.load (MAX_CACHE_AGE cfg) w) as -> by done.
  cbn [running wf.Workflow3 set_feedback_sent set_rerun set_items].
  split_and!.
  - intros [= Hfresh] Hidle. rewrite Hfresh.
    rewrite (bool_decide_eq_false_2 _ Hidle). cbn. split_and!; try done.
    set_solver.
  - intros Hbusy. rewrite (bool_decide_eq_true_2 _ Hbusy).
    rewrite andb_false_r, orb_true_r. by cbn.
  - intros [= Hfresh] Hidle. rewrite Hfresh.
    rewrite (bool_decide_eq_false_2 _ Hidle). by cbn.
Qed.

(** C2: a query starts one refresh, and sets the rerun interval, when the
    cache is not fresh (stale or absent) and no reload job is running; it
    starts none, and sets the rerun interval, when a reload job is running;
    it starts none and leaves the rerun interval unset when the cache is
    fresh and no job is running.  A second query made while the refresh
    started by the first is running starts no second one. *)
Theorem query_starts_at_most_one_refresh cfg query w :
  let out := (run_main cfg (query_args query) w).2 in
  let fresh := (wf.cached_data_fresh (MAX_CACHE_AGE cfg) w).1 in
  (fresh = Return false → "reload" ∉ running w →
     launched out
       = (launched w ++ [("reload", [argv0 w; "--reload"])])%list ∧
     "reload" ∈ running out ∧ rerun out = 0.2%Q ∧
     ∀ query',
       launched (run_main cfg (query_args query') out).2 = launched out ∧
       rerun (run_main cfg (query_args query') out).2 = 0.2%Q) ∧
  ("reload" ∈ running w →
     launched out = launched w ∧ running out = running w ∧
     rerun out = 0.2%Q) ∧
  (fresh = Return true → "reload" ∉ running w →
     launched out = launched w ∧ running out = running w ∧
     rerun out = 0%Q).
Proof.
  intros out fresh.
  destruct (refresh_decision cfg query w) as (Hstale & Hbusy & Hfresh).
  fold out fresh in Hstale, Hbusy, Hfresh.
  split_and!; [|done..].
  intros Hnot Hidle. destruct (Hstale Hnot Hidle) as (Hl & Hr & Hrr).
  split_and!; [done..|]. intros query'.
  destruct (refresh_decision cfg query' out) as (_ & Hagain & _).
  destruct (Hagain Hr) as (Hl' & _ & Hrr'). done.
Qed.
End Refresh.

(** ** The reload action *)

Section ReloadItem.
Context {number : Type} `{!PyHash number} `{!Externals number}.
Implicit Types (w : World number) (cfg : Config) (q : string).

Lemma bind_eq_Return {A B} (m : M number A) (k : A → M number B) w a w1 :
  m w = (Return a, w1) → bind m k w = k a w1.
Proof. unfold bind. by intros ->. Qed.

Lemma bind_eq_Raise {A B} (m : M number A) (k : A → M number B) w e w1 :
  m w = (Raise e, w1) → bind m k w = (Raise e, w1).
Proof. unfold bind. by intros ->. Qed.

Lemma startswith_cons_inv c s q :
  Py.startswith (String c s) q = true →
  q = "" ∨ ∃ q', q = String c q' ∧ Py.startswith s q' = true.
Proof.
  destruct q as [|c' q']; [by left|]. cbn [Py.startswith].
  intros [Hc Hs]%andb_true_iff. right. exists q'.
  apply Ascii.eqb_eq in Hc as ->. done.
Qed.

Lemma startswith_nil_inv q : Py.startswith "" q = true → q = "".
Proof. by destruct q. Qed.

(** The guard of the reload action holds for the five prefixes of [reload]
    of two characters or more, and for no other query. *)
Lemma reload_guard q :
  (1 <? String.length q)%nat && Py.startswith "reload" q = true
  ↔ q ∈ reload_queries.
Proof.
  unfold reload_queries. split.
  - intros [Hlen Hpre]%andb_true_iff.
    repeat (apply startswith_cons_inv in Hpre as [->|(? & -> & Hpre)];
            [first [discriminate Hlen | set_solver]|]).
    apply startswith_nil_inv in Hpre as ->. set_solver.
  - intros Hq. repeat (apply elem_of_cons in Hq as [->|Hq]; [done|]).
    by apply elem_of_nil in Hq.
Qed.

Lemma add_event_item_outcome icons (d : Event number) w :
  ((add_event_item icons d w).1 = Return tt ∧
   ∃ it, items (add_event_item icons d w).2 = (items w ++ [it])%list ∧
         item_vars it ≠ []) ∨
  ((∃ e, (add_event_item icons d w).1 = Raise e) ∧
   (add_event_item icons d w).2 = w).
Proof.
  unfold add_event_item.
  pose proof (get_icon_world icons (colour d) None w) as Hw.
  destruct (Icons.get_icon icons (colour d) None w) as [[icon|e] w'] eqn:Hget;
    cbn [snd] in Hw; subst w'.
  - left. rewrite (bind_eq_Return _ _ _ _ _ Hget).
    cbv beta iota delta [bind wf.add_item wf.setvar modify].
    cbn [fst snd items set_items]. split; [done|].
    eexists. split.
    + rewrite <- (Nat.add_0_r (length (items w))).
      rewrite !alter_app_r. cbn [alter list_alter]. reflexivity.
    + cbn. discriminate.
  - right. rewrite (bind_eq_Raise _ _ _ _ _ Hget). eauto.
Qed.

Lemma add_event_item_stable icons (d : Event number) :
  within (stable (λ w, reload_item ∉ items w)) (add_event_item icons d).
Proof.
  intros w Hw.
  destruct (add_event_item_outcome icons d w)
    as [(_ & it & -> & Hvars)|(_ & ->)]; [|done].
  apply not_elem_of_app. split; [done|].
  intros <-%list_elem_of_singleton. by apply Hvars.
Qed.

Lemma offer_reload_eq q w :
  offer_reload q w
  = (Return tt,
     if (1 <? String.length q)%nat && Py.startswith "reload" q
     then set_items (items w ++ [reload_item]) w else w).
Proof. unfold offer_reload. by destruct (_ && _). Qed.

Lemma warn_empty_eq title w :
  wf.warn_empty title w
  = (Return tt,
     if (length (items w) =? 0)%nat
     then set_items
            (items w ++ [mkItem title "" None false (Some ICON_WARNING) []]) w
     else w).
Proof.
  unfold wf.warn_empty, bind, gets. cbn beta iota.
  by destruct (length (items w) =? 0)%nat.
Qed.

Lemma no_data_stable reloading w :
  reload_item ∉ items w →
  (no_data reloading w).1 = Return tt ∧
  reload_item ∉ items (no_data reloading w).2.
Proof.
  intros Hw. unfold no_data, bind, wf.add_item, wf.send_feedback, modify.
  destruct reloading; cbn; (split; [done|]);
    (apply not_elem_of_app; split; [done|]);
    by intros [=]%list_elem_of_singleton.
Qed.

(** The display of a cached dictionary either raises before the reload
    action, or returns with the reload item present exactly for the queries
    of [reload_queries]. *)
Lemma show_events_outcome cfg q (data : Dataset number) w :
  reload_item ∉ items w →
  ((∃ e, (show_events cfg q data w).1 = Raise e) ∧
   reload_item ∉ items (show_events cfg q data w).2) ∨
  ((show_events cfg q data w).1 = Return tt ∧
   (reload_item ∈ items (show_events cfg q data w).2 ↔ q ∈ reload_queries)).
Proof.
  intros Hw. unfold show_events.
  destruct (Py.truthy (error data)); [left; eauto|].
  destruct (events data) as [all|]; [|left; eauto].
  erewrite bind_eq_Return by reflexivity.
  destruct (filter_events_eq cfg all w) as [kept Hkept].
  rewrite (bind_eq_Return _ _ _ _ _ Hkept).
  erewrite bind_eq_Return by reflexivity.
  set (evs := if negb (String.eqb q "") then wf_filter q kept else kept).
  set (icons := Icons.init _).
  pose proof (within_for_each _ evs (add_event_item icons)
                (add_event_item_stable icons) w Hw) as Hloop.
  destruct (for_each evs (add_event_item icons) w) as [[[]|e] w3] eqn:Hfe;
    cbn [snd] in Hloop.
  - right. rewrite (bind_eq_Return _ _ _ _ _ Hfe).
    rewrite (bind_eq_Return _ _ _ _ _ (offer_reload_eq q w3)).
    rewrite (bind_eq_Return _ _ _ _ _ (warn_empty_eq _ _)).
    unfold wf.send_feedback, modify. cbn [fst snd]. split; [done|].
    rewrite <- reload_guard.
    destruct ((1 <? String.length q)%nat && Py.startswith "reload" q).
    + cbn [items set_items set_feedback_sent].
      rewrite length_app, Nat.add_comm. cbn [length Nat.add Nat.eqb].
      split; [done|]. intros _. apply elem_of_app. right.
      apply list_elem_of_singleton. done.
    + split; [|done]. intros Hin. exfalso.
      destruct (length (items w3) =? 0)%nat;
        cbn [items set_items set_feedback_sent] in Hin; [|done].
      apply elem_of_app in Hin as [Hin|[=]%list_elem_of_singleton]. done.
  - left. rewrite (bind_eq_Raise _ _ _ _ _ Hfe). eauto.
Qed.

(** C8, as amended: in query mode the feedback holds the reload item
    exactly when the query is a prefix of [reload] of two characters or
    more, a cached dictionary is there to show, and the run ends without an
    exception.  For every other query, the single letter [r] among them, the
    item is absent. *)
Theorem reload_item_offered cfg (query : option string) w :
  let out := run_main cfg (query_args query) w in
  reload_item ∈ items out.2 ↔
    from_option id "" query ∈ reload_queries ∧
    data_truthy (wf.load 0 w) = true ∧
    out.1 = Return tt.
Proof.
  intros out. subst out. rewrite run_main_query, search_events_eq.
  assert (wf.load 0 (wf.Workflow3 w) = wf.load 0 w) as -> by done.
  assert (reload_item ∉ items (after_refresh cfg (wf.Workflow3 w))) as Hnew.
  { unfold after_refresh. repeat case_match; cbn; apply not_elem_of_nil. }
  set (w2 := after_refresh cfg (wf.Workflow3 w)) in *.
  set (busy := reloading_after cfg (wf.Workflow3 w)).
  destruct (wf.load 0 w) as [data|].
  - destruct (data_truthy (Some data)).
    + destruct (show_events_outcome cfg (from_option id "" query) data w2 Hnew)
        as [([e He] & Hno)|(Hret & Hiff)].
      * rewrite He. split; [done|]. by intros (_ & _ & [=]).
      * rewrite Hiff, Hret. tauto.
    + destruct (no_data_stable busy w2 Hnew) as [_ Hno].
      split; [done|]. by intros (_ & [=] & _).
  - destruct (no_data_stable busy w2 Hnew) as [_ Hno].
    split; [done|]. by intros (_ & [=] & _).
Qed.
End ReloadItem.

(** C8, as stated, fails: [r] is a non-empty prefix of [reload], yet with a
    Dataset cached the query [r] gets no reload item. *)
Lemma single_letter_query_no_reload_item :
  Py.startswith "reload" "r" = true ∧ "r" ≠ "" ∧
  reload_item ∉ items (run_main Demo.cfg (query_args (Some "r"))
                                (Demo.cached Demo.good)).2.
Proof.
  split_and!; [reflexivity | discriminate |].
  rewrite list_elem_of_In. vm_compute. intros [Heq|[]]. discriminate Heq.
Qed.

(** C1, as stated, fails: a good Dataset cached at time 900 does not
    survive a refresh at time 1000 whose fetch reports an error; the entry
    becomes the Dataset with the error, stamped 1000. *)
Lemma failed_refresh_replaces_entry :
  source Demo.denied_fetch = Return Demo.denied ∧
  Py.truthy (error Demo.denied) = true ∧
  events_cache Demo.denied_fetch = Some (Demo.good, 900%Z) ∧
  events_cache (do_reload Demo.cfg false Demo.denied_fetch).2
    = Some (Demo.denied, 1000%Z) ∧
  events_cache (do_reload Demo.cfg false Demo.denied_fetch).2
    ≠ events_cache Demo.denied_fetch.
Proof. split_and!; [reflexivity..|]. vm_compute. discriminate. Qed.

(** C6, as stated, fails: no artifact exists for the colour (0, 0, 0, 1),
    the caller passes the empty string as default, and [get_icon] returns
    [icon.png], the default of the instance, not the caller's default. *)
Lemma get_icon_blank_default_replaced :
  Icons._icon_path Demo.icons Demo.green
    = Return "/cache/icons/0/0/0/1/0-0-0-1.png" ∧
  fs Demo.empty_world !! "/cache/icons/0/0/0/1/0-0-0-1.png" = None ∧
  (Icons.get_icon Demo.icons Demo.green (Some "") Demo.empty_world).1
    = Return (Some "icon.png") ∧
  (Icons.get_icon Demo.icons Demo.green (Some "") Demo.empty_world).1
    ≠ Return (Some "").
Proof. split_and!; [reflexivity..|]. vm_compute. discriminate. Qed.

(** C9, as stated, fails: on an instance built with the empty string as its
    default, [get_icon] called with the empty string returns the empty
    string, the very value the caller supplied. *)
Lemma get_icon_blank_instance_default :
  Py.truthy (Some "") = false ∧
  fs Demo.empty_world !! "/cache/icons/0/0/0/1/0-0-0-1.png" = None ∧
  (Icons.get_icon (Icons.mk "/cache/icons" (Some "") (Some "icon.png"))
     Demo.green (Some "") Demo.empty_world).1
  = Return (Some "").
Proof. split_and!; reflexivity. Qed.

(** ** Runs of the scripts *)

(** A fresh cache: the stand-up is listed with the matched link as its
    argument, lunch has no link and is dropped, nothing is started. *)
Example query_lists_standup :
  run_main Demo.cfg (query_args None) (Demo.cached Demo.good)
  = (Return tt,
     set_feedback_sent true
       (set_items
          [mkItem "Standup" "5000–6000 on 5000 // Team (Work)"
                  (Some "https://meet.example/abc") true (Some "icon.png")
                  [("calendar_name", "Team"); ("event_id", "uid-1")]]
          (Demo.cached Demo.good))).
Proof. vm_compute. reflexivity. Qed.

(** An event of an account outside the allow-list is not listed. *)
Example personal_event_dropped :
  items (run_main Demo.cfg (query_args None)
           (Demo.cached (mkDataset (Some [Demo.personal]) None))).2
  = [mkItem "No Video Conferences" "" None false
            (Some "AlertCautionIcon.icns") []].
Proof. vm_compute. reflexivity. Qed.

(** A reload run writes the cache and the icon of the one colour seen; the
    next query then finds the icon. *)
Example reload_then_query :
  let w := (run_main Demo.cfg (reload_args true) Demo.empty_world).2 in
  events_cache w = Some (Demo.good, 1000%Z) ∧
  renders w = [("icon.png", "/cache/icons/0/0/0/1/0-0-0-1.png", Demo.green)] ∧
  triggers w = ["notify"] ∧
  item_icon <$> items (run_main Demo.cfg (query_args None) w).2
  = [Some "/cache/icons/0/0/0/1/0-0-0-1.png"].
Proof. vm_compute. done. Qed.

(** A query made while a reload runs starts nothing and asks for a rerun. *)
Example query_while_reloading :
  launched (run_main Demo.cfg (query_args None) Demo.reloading_world).2
  = launched Demo.reloading_world ∧
  rerun (run_main Demo.cfg (query_args None) Demo.reloading_world).2 = 0.2%Q.
Proof. vm_compute. done. Qed.

(** An error key holding the empty string is falsy for [main]: nothing is
    raised and the events are listed. *)
Example blank_error_is_no_error :
  (run_main Demo.cfg (query_args None) (Demo.cached Demo.blank_error)).1
  = Return tt ∧
  item_title <$> items (run_main Demo.cfg (query_args None)
                          (Demo.cached Demo.blank_error)).2
  = ["Standup"].
Proof. vm_compute. done. Qed.

(** ** The properties at concrete inputs *)

Lemma do_reload_overwrites_cache_witness :
  source Demo.empty_world = Return Demo.good ∧
  events_cache (do_reload Demo.cfg true Demo.empty_world).2
    = Some (Demo.good, 1000%Z).
Proof.
  split; [reflexivity|].
  apply (proj1 (do_reload_overwrites_cache Demo.cfg true Demo.empty_world)
           Demo.good).
  reflexivity.
Defined.

Lemma query_starts_at_most_one_refresh_witness :
  (wf.cached_data_fresh (MAX_CACHE_AGE Demo.cfg) Demo.empty_world).1
    = Return false ∧
  ("reload" ∉ running Demo.empty_world) ∧
  launched (run_main Demo.cfg (query_args None) Demo.empty_world).2
    = [("reload", ["video-conferences.py"; "--reload"])] ∧
  ("reload" ∈ running (run_main Demo.cfg (query_args None)
                         Demo.empty_world).2) ∧
  rerun (run_main Demo.cfg (query_args None) Demo.empty_world).2 = 0.2%Q.
Proof.
  assert ((wf.cached_data_fresh (MAX_CACHE_AGE Demo.cfg) Demo.empty_world).1
          = Return false) as Hstale by reflexivity.
  assert ("reload" ∉ running Demo.empty_world) as Hidle
    by apply not_elem_of_empty.
  split; [exact Hstale|]. split; [exact Hidle|].
  destruct (proj1 (query_starts_at_most_one_refresh Demo.cfg None
                     Demo.empty_world) Hstale Hidle)
    as (Hlaunched & Hrunning & Hrerun & _).
  split; [exact Hlaunched|]. split; [exact Hrunning | exact Hrerun].
Defined.

Lemma cached_error_is_raised_witness :
  (run_main Demo.cfg (query_args None) (Demo.cached Demo.denied)).1
    = Raise (RuntimeError "Access to calendars denied") ∧
  items (run_main Demo.cfg (query_args None) (Demo.cached Demo.denied)).2 = [] ∧
  feedback_sent (run_main Demo.cfg (query_args None)
                   (Demo.cached Demo.denied)).2 = false.
Proof.
  apply (cached_error_is_raised Demo.cfg None (Demo.cached Demo.denied)
           Demo.denied 900%Z "Access to calendars denied");
    [reflexivity | reflexivity | discriminate].
Defined.

Lemma event_filter_keeps_wanted_witness :
  ∃ keep event',
    event_filter Demo.cfg Demo.standup Demo.empty_world
      = (Return (keep, event'), Demo.empty_world) ∧
    (keep = true ↔ wanted Demo.cfg (clock Demo.empty_world) Demo.standup) ∧
    (keep = true →
       first_match (REGEXES Demo.cfg)
         [url Demo.standup; location Demo.standup; notes Demo.standup]
         (url event')).
Proof.
  exact (event_filter_keeps_wanted Demo.cfg Demo.standup Demo.empty_world).
Defined.

Lemma event_filter_changes_only_url_witness :
  ∃ keep event',
    event_filter Demo.cfg Demo.lunch Demo.empty_world
      = (Return (keep, event'), Demo.empty_world) ∧
    same_but_url Demo.lunch event' ∧
    (keep = false → event' = Demo.lunch).
Proof.
  exact (event_filter_changes_only_url Demo.cfg Demo.lunch Demo.empty_world).
Defined.

Lemma create_icon_idempotent_witness :
  Py.truthy (Py.or_ None (Icons.template Demo.icons)) = true ∧
  ∃ path w1,
    Icons._icon_path Demo.icons [0; 0; 0; 1]%Z = Return path ∧
    Icons.create_icon Demo.icons [0; 0; 0; 1]%Z None Demo.empty_world
      = (Return path, w1) ∧
    Icons.create_icon Demo.icons [0; 0; 0; 1]%Z None w1 = (Return path, w1) ∧
    is_Some (fs w1 !! path) ∧
    (length (renders w1) ≤ S (length (renders Demo.empty_world)))%nat.
Proof.
  split; [reflexivity|].
  apply (create_icon_idempotent Demo.icons 0%Z [0; 0; 1]%Z None
           Demo.empty_world).
  reflexivity.
Defined.

Lemma get_icon_reads_only_witness :
  ∃ path,
    Icons._icon_path Demo.icons [0; 0; 0; 1]%Z = Return path ∧
    (Icons.get_icon Demo.icons [0; 0; 0; 1]%Z (Some "fallback.png")
       Demo.empty_world).2 = Demo.empty_world ∧
    (Icons.get_icon Demo.icons [0; 0; 0; 1]%Z (Some "fallback.png")
       Demo.empty_world).1 = Return (Some "fallback.png").
Proof.
  destruct (get_icon_reads_only Demo.icons 0%Z [0; 0; 1]%Z
              (Some "fallback.png") Demo.empty_world)
    as (path & Hpath & Hworld & Hnone & _ & Hdefault & _).
  exists path. split; [exact Hpath|]. split; [exact Hworld|].
  rewrite <- (Hdefault eq_refl). apply Hnone.
  injection Hpath as <-. reflexivity.
Defined.

Lemma get_icon_falsy_default_witness :
  Py.truthy (Some "") = false ∧
  Icons.get_icon Demo.icons [0; 0; 0; 1]%Z (Some "") Demo.empty_world
    = Icons.get_icon Demo.icons [0; 0; 0; 1]%Z None Demo.empty_world ∧
  (Icons.get_icon Demo.icons [0; 0; 0; 1]%Z (Some "") Demo.empty_world).1
    = Return (Some "icon.png").
Proof.
  split; [reflexivity|].
  destruct (get_icon_falsy_default Demo.icons 0%Z [0; 0; 1]%Z (Some "")
              Demo.empty_world eq_refl)
    as (Hsame & path & Hpath & Hnone & _).
  split; [exact Hsame|]. apply Hnone.
  injection Hpath as <-. reflexivity.
Defined.

(** ** More on the icon cache *)

Section IconStore.
Context {number : Type} `{!PyHash number}.
Implicit Types (self : Icons.t) (w : World number) (c : number)
               (cs : list number) (tree : gmap string (node number)).

Lemma mkdirs_preserve tree (dirs : list string) p n :
  tree !! p = Some n → foldr os.mkdir_missing tree dirs !! p = Some n.
Proof.
  intros Hp. induction dirs as [|d dirs IH]; [done|]. cbn [foldr].
  unfold os.mkdir_missing at 1.
  destruct (foldr os.mkdir_missing tree dirs !! d) eqn:Hd; [exact IH|].
  rewrite lookup_insert_ne; [exact IH|]. intros ->. congruence.
Qed.

(** What a call of [create_icon] with a template does. *)
Lemma create_icon_outcome self c cs template w :
  Py.truthy (Py.or_ template (Icons.template self)) = true →
  ∃ path w1,
    Icons._icon_path self (c :: cs) = Return path ∧
    Icons.create_icon self (c :: cs) template w = (Return path, w1) ∧
    is_Some (fs w1 !! path) ∧
    (∀ p n, fs w !! p = Some n → fs w1 !! p = Some n) ∧
    (length (renders w1) ≤ S (length (renders w)))%nat ∧
    icon_change w w1.
Proof.
  intros Ht. destruct (icon_path_defined self c cs) as (path & Hp & _).
  exists path. unfold Icons.create_icon. rewrite Ht, Hp. cbn [negb].
  cbv beta iota delta [bind os.path_exists os.makedirs gets modify ret
                       lift Icons._write_image].
  destruct (bool_decide (is_Some (fs w !! path))) eqn:Hfound.
  - exists w. apply bool_decide_eq_true in Hfound.
    split_and!; [done..| lia | reflexivity].
  - apply bool_decide_eq_false in Hfound.
    assert (∀ p n, fs w !! p = Some n → p ≠ path) as Hother.
    { intros p n Hpn ->. apply Hfound. eauto. }
    destruct (negb (bool_decide (is_Some (fs w !! posixpath.dirname path))));
      (eexists; split; [done|]; split; [reflexivity|]);
      cbn [fs renders set_fs set_renders];
      (split_and!;
       [ rewrite lookup_insert_eq; eauto
       | intros p n Hpn; rewrite lookup_insert_ne by (symmetry; eauto);
         try apply mkdirs_preserve; done
       | rewrite length_app; cbn; lia
       | by eexists _, _ ]).
Qed.

(** X1: when neither the call nor the object has a template, [create_icon]
    raises [ValueError] before anything else: for every colour, whatever
    the icon directory holds, the world is left as it was. *)
Theorem create_icon_without_template self (colour : list number) template w :
  Py.truthy template = false → Py.truthy (Icons.template self) = false →
  Icons.create_icon self colour template w
  = (Raise (ValueError "no template specified"), w).
Proof.
  intros Ht Hs. unfold Icons.create_icon, Py.or_. by rewrite Ht, Hs.
Qed.

(** X2: an icon that [create_icon] has returned is found by [get_icon]:
    in the world the call leaves, [get_icon] of the same colour returns the
    same path and not the default, whatever the default. *)
Theorem create_icon_then_get_icon self c cs template default w :
  Py.truthy (Py.or_ template (Icons.template self)) = true →
  ∃ path,
    (Icons.create_icon self (c :: cs) template w).1 = Return path ∧
    Icons.get_icon self (c :: cs) default
      (Icons.create_icon self (c :: cs) template w).2
    = (Return (Some path), (Icons.create_icon self (c :: cs) template w).2).
Proof.
  intros Ht.
  destruct (create_icon_outcome self c cs template w Ht)
    as (path & w1 & Hp & -> & Hsome & _).
  exists path. split; [done|]. cbn [snd].
  rewrite (get_icon_eq _ _ _ _ _ _ Hp).
  by rewrite bool_decide_eq_true_2.
Qed.

(** X3: [create_icon] never changes or removes an entry of the icon
    directory that was there before the call. *)
Theorem create_icon_keeps_existing self (colour : list number) template w p n :
  fs w !! p = Some n →
  fs (Icons.create_icon self colour template w).2 !! p = Some n.
Proof.
  intros Hp. destruct colour as [|c cs].
  - unfold Icons.create_icon. destruct (negb _); [done|].
    by cbv [bind lift Icons._icon_path map].
  - destruct (Py.truthy (Py.or_ template (Icons.template self))) eqn:Ht.
    + destruct (create_icon_outcome self c cs template w Ht)
        as (path & w1 & _ & -> & _ & Hkeep & _). by apply Hkeep.
    + unfold Icons.create_icon. by rewrite Ht.
Qed.

(** X4: a colour without components has no icon path: [get_icon] raises
    [TypeError], and so does [create_icon] once it has a template, both
    leaving the world as it was. *)
Theorem empty_colour_is_type_error self default template w :
  (∃ msg, Icons.get_icon self [] default w = (Raise (TypeError msg), w)) ∧
  (Py.truthy (Py.or_ template (Icons.template self)) = true →
   ∃ msg, Icons.create_icon self [] template w = (Raise (TypeError msg), w)).
Proof.
  split.
  - by eexists.
  - intros Ht. unfold Icons.create_icon. rewrite Ht. by eexists.
Qed.
End IconStore.

Section PathInjective.
Context {number : Type} `{!PyHash number}.

Lemma to_int_not_nil n : Z.to_int n ≠ Decimal.Pos Decimal.Nil ∧
                         Z.to_int n ≠ Decimal.Neg Decimal.Nil.
Proof.
  split; intros H; pose proof (DecimalZ.to_of (Z.to_int n)) as Hn;
    rewrite DecimalZ.of_to, H in Hn; discriminate Hn.
Qed.

(** [str] of an integer determines the integer. *)
Lemma str_inj n m : Py.str n = Py.str m → n = m.
Proof.
  unfold Py.str. intros H. apply DecimalZ.to_int_inj.
  destruct (to_int_not_nil n) as [Hn1 Hn2].
  destruct (to_int_not_nil m) as [Hm1 Hm2].
  pose proof (NilZero.isi _ Hn1 Hn2) as Hn.
  pose proof (NilZero.isi _ Hm1 Hm2) as Hm.
  rewrite H in Hn. congruence.
Qed.

(** Two paths that start with a segment and a separator agree on the
    segment and on the rest. *)
Lemma segment_split a a' x x' :
  no_sep a = true → no_sep a' = true →
  a +:+ "/" +:+ x = a' +:+ "/" +:+ x' → a = a' ∧ x = x'.
Proof.
  assert (∀ y, "" +:+ y = y) as Hnil by done.
  revert a'. induction a as [|c a IH]; intros [|c' a'] Ha Ha' Heq;
    rewrite ?Hnil, ?append_cons, ?Hnil in Heq.
  - by injection Heq as ->.
  - injection Heq as <- _. cbn in Ha'. done.
  - injection Heq as -> _. cbn in Ha. done.
  - injection Heq as -> Heq. cbn [no_sep] in Ha, Ha'.
    apply andb_true_iff in Ha as [_ Ha]. apply andb_true_iff in Ha' as [_ Ha'].
    destruct (IH a' Ha Ha' Heq) as [-> ->]. done.
Qed.

Lemma icon_path_explicit (self : Icons.t) (r g b a : number) :
  Icons._icon_path self [r; g; b; a]
  = Return (under (Icons.dirpath self) +:+
            Py.str (hash r) +:+ "/" +:+ Py.str (hash g) +:+ "/" +:+
            Py.str (hash b) +:+ "/" +:+ Py.str (hash a) +:+ "/" +:+
            Py.str (hash r) +:+ "-" +:+ Py.str (hash g) +:+ "-" +:+
            Py.str (hash b) +:+ "-" +:+ Py.str (hash a) +:+ ".png").
Proof.
  pose proof (str_segment (hash r)) as Hr.
  pose proof (str_segment (hash g)) as Hg.
  pose proof (str_segment (hash b)) as Hb.
  pose proof (str_segment (hash a)) as Ha.
  unfold Icons._icon_path, posixpath.join. cbn [map Py.join fold_left].
  set (sr := Py.str (hash r)) in *. set (sg := Py.str (hash g)) in *.
  set (sb := Py.str (hash b)) in *. set (sa := Py.str (hash a)) in *.
  f_equal.
  rewrite (join2_relative sr sg) by segments.
  rewrite (join2_relative _ sb) by (rewrite ?append_assoc; segments).
  rewrite (join2_relative _ sa) by (rewrite ?append_assoc; segments).
  rewrite (join2_under (Icons.dirpath self))
    by (rewrite ?append_assoc; segments).
  rewrite join2_relative by (rewrite ?append_assoc; segments).
  by rewrite !append_assoc.
Qed.

(** X5: two colours of four components have the same icon path only when
    their components have the same hashes, one by one. *)
Theorem icon_path_determines_hashes (self : Icons.t)
    (r g b a r' g' b' a' : number) :
  Icons._icon_path self [r; g; b; a] = Icons._icon_path self [r'; g'; b'; a'] →
  hash r = hash r' ∧ hash g = hash g' ∧ hash b = hash b' ∧ hash a = hash a'.
Proof.
  rewrite !icon_path_explicit. intros [= Heq].
  apply (inj (String.append _)) in Heq.
  apply segment_split in Heq as [Hr Heq]; [|apply str_segment..].
  apply segment_split in Heq as [Hg Heq]; [|apply str_segment..].
  apply segment_split in Heq as [Hb Heq]; [|apply str_segment..].
  apply segment_split in Heq as [Ha _]; [|apply str_segment..].
  auto using str_inj.
Qed.
End PathInjective.

(** ** More on the refresh *)

Section Reload.
Context {number : Type} `{!PyHash number} `{!Externals number}.
Implicit Types (w : World number) (cfg : Config).

Global Instance icons_kept_preorder : PreOrder (@icons_kept number).
Proof.
  split; [intros w p n Hp; exact Hp|].
  intros w1 w2 w3 H1 H2 p n Hp. apply H2, H1, Hp.
Qed.

Lemma create_icon_icons_kept self (colour : list number) template :
  within icons_kept (Icons.create_icon self colour template).
Proof.
  intros w p n Hp. destruct colour as [|c cs].
  - unfold Icons.create_icon. destruct (negb _); [done|].
    by cbv [bind lift Icons._icon_path map].
  - destruct (Py.truthy (Py.or_ template (Icons.template self))) eqn:Ht.
    + destruct (create_icon_outcome self c cs template w Ht)
        as (path & w1 & _ & -> & _ & Hkeep & _). by apply Hkeep.
    + unfold Icons.create_icon. by rewrite Ht.
Qed.

Lemma create_icon_renders self (colour : list number) template w :
  (length (renders (Icons.create_icon self colour template w).2)
   ≤ S (length (renders w)))%nat.
Proof.
  destruct colour as [|c cs].
  - unfold Icons.create_icon. destruct (negb _); [cbn; lia|].
    cbv [bind lift Icons._icon_path map]. cbn. lia.
  - destruct (Py.truthy (Py.or_ template (Icons.template self))) eqn:Ht.
    + destruct (create_icon_outcome self c cs template w Ht)
        as (path & w1 & _ & -> & _ & _ & Hlen & _). done.
    + unfold Icons.create_icon. rewrite Ht. cbn. lia.
Qed.

Lemma create_each_renders icons colours w :
  (length (renders (create_each icons colours w).2)
   ≤ length (renders w) + length colours)%nat.
Proof.
  revert w. induction colours as [|c colours IH]; intros w; [cbn; lia|].
  unfold create_each. cbn [for_each]. unfold bind at 1 2.
  pose proof (create_icon_renders icons c None w) as Hc.
  destruct (Icons.create_icon icons c None w) as [[path|e] w1];
    cbn [snd fst ret length] in *; [|lia].
  specialize (IH w1). unfold create_each in IH. lia.
Qed.

Lemma create_each_kept icons colours :
  within icons_kept (create_each icons colours).
Proof.
  apply within_for_each; [apply _|]. intros c.
  apply within_bind; [apply _ | apply create_icon_icons_kept |].
  intros _. apply within_ret, _.
Qed.


Lemma generate_icons_eq (evs : list (Event number)) w :
  generate_icons evs w
  = create_each (icon_store w) (remove_dups (colour <$> evs)) w.
Proof. done. Qed.
End Reload.

Section ReloadRun.
Context {number : Type} `{!PyHash number} `{!Externals number}.
Implicit Types (w : World number) (cfg : Config).

Lemma do_reload_steps cfg notify w :
  do_reload cfg notify w =
  let w1 :=
    set_commands (commands w ++ [["/usr/bin/osascript"; "CalendarEvents.scpt";
                                  Py.str (LOOKAHEAD_DAYS cfg)]]) w in
  match source w with
  | Return data =>
      let w2 := set_events_cache (Some (data, clock w)) w1 in
      match icon_step data w2 with
      | (Return _, w3) =>
          (Return tt, if notify then set_triggers (triggers w3 ++ ["notify"]) w3
                      else w3)
      | (Raise e, w3) => (Raise e, w3)
      end
  | Raise e => (Raise e, w1)
  end.
Proof.
  rewrite do_reload_eq. cbv zeta. destruct (source w) as [data|e]; [|done].
  unfold bind, icon_step.
  destruct (match events data with
            | Some (e :: rest) => generate_icons (e :: rest)
            | _ => ret tt
            end _) as [[[]|e] w3]; [|done].
  by destruct notify.
Qed.

Lemma icon_step_eq (data : Dataset number) w :
  icon_step data w
  = create_each (icon_store w)
      (remove_dups (colour <$> from_option id [] (events data))) w.
Proof.
  unfold icon_step. by destruct (events data) as [[|e rest]|].
Qed.

Lemma icon_step_icon_change (data : Dataset number) :
  within icon_change (icon_step data).
Proof.
  unfold icon_step. destruct (events data) as [[|e rest]|];
    first [apply generate_icons_icon_change | apply within_ret, _].
Qed.


(** X9: [do_reload] only adds to the icon directory: no entry that was
    there is changed or removed, the renderer runs at most once per
    distinct colour among the fetched events, and not at all when the fetch
    fails. *)
Theorem reload_adds_icons_only cfg notify w :
  (∀ p n, fs w !! p = Some n → fs (do_reload cfg notify w).2 !! p = Some n) ∧
  (∀ data, source w = Return data →
     (length (renders (do_reload cfg notify w).2)
      ≤ length (renders w)
        + length (remove_dups (colour <$> from_option id [] (events data))))%nat) ∧
  (∀ e, source w = Raise e →
     fs (do_reload cfg notify w).2 = fs w ∧
     renders (do_reload cfg notify w).2 = renders w).
Proof.
  rewrite do_reload_steps. cbv zeta.
  destruct (source w) as [data|e].
  - set (w2 := set_events_cache _ _).
    pose proof (create_each_kept (icon_store w2)
      (remove_dups (colour <$> from_option id [] (events data))) w2) as Hkept.
    pose proof (create_each_renders (icon_store w2)
      (remove_dups (colour <$> from_option id [] (events data))) w2) as Hlen.
    rewrite <- icon_step_eq in Hkept, Hlen.
    destruct (icon_step data w2) as [[[]|e] w3]; cbn [snd] in *.
    + split_and!.
      * intros p n Hp. destruct notify; by apply Hkept.
      * intros ? [= <-]. by destruct notify.
      * by intros e.
    + split_and!; [by intros p n Hp; apply Hkept | by intros ? [= <-]
                  | by intros ?].
  - split_and!; [done | by intros ? | by intros ? _].
Qed.

(** X10: [do_reload] leaves the feedback items, the rerun interval, the
    sent flag and the background jobs as they were. *)
Theorem reload_leaves_feedback_and_jobs cfg notify w :
  let out := (do_reload cfg notify w).2 in
  items out = items w ∧ rerun out = rerun w ∧
  feedback_sent out = feedback_sent w ∧
  running out = running w ∧ launched out = launched w.
Proof.
  cbv zeta. rewrite do_reload_steps. cbv zeta.
  destruct (source w) as [data|e]; [|done].
  set (w2 := set_events_cache _ _).
  pose proof (icon_step_icon_change data w2) as (tree & log & Hw3).
  destruct (icon_step data w2) as [[[]|e] w3]; cbn [snd] in Hw3; subst w3;
    [by destruct notify | done].
Qed.

(** X11: [do_reload] fires the [notify] trigger exactly once when [notify]
    is set and the run reaches its end, and never when it ends in an
    exception. *)
Theorem reload_notifies_on_completion cfg notify w :
  let out := do_reload cfg notify w in
  (out.1 = Return tt →
     triggers out.2 = (triggers w ++ if notify then ["notify"] else [])%list) ∧
  (∀ e, out.1 = Raise e → triggers out.2 = triggers w).
Proof.
  cbv zeta. rewrite do_reload_steps. cbv zeta.
  destruct (source w) as [data|e]; [|by split].
  set (w2 := set_events_cache _ _).
  pose proof (icon_step_icon_change data w2) as (tree & log & Hw3).
  destruct (icon_step data w2) as [[[]|e] w3]; cbn [snd] in Hw3; subst w3.
  - split; [|done]. intros _. destruct notify; cbn; [done|].
    by rewrite app_nil_r.
  - by split.
Qed.
End ReloadRun.

(** ** More on the modes of [main] *)

Section ForceReload.
Context {number : Type} `{!PyHash number} `{!Externals number}.
Implicit Types (w : World number) (cfg : Config).

Lemma do_force_reload_eq w :
  do_force_reload w
  = (Return tt,
     if bool_decide ("reload" ∈ running w) then w
     else set_jobs ({["reload"]} ∪ running w)
            (launched w ++ [("reload", [argv0 w; "--reload"; "--notify"])]) w).
Proof.
  unfold do_force_reload, bind, background.is_running,
    background.run_in_background, gets, modify, ret. cbn beta iota.
  destruct (bool_decide ("reload" ∈ running w)) eqn:Hr; cbn [negb]; [done|].
  by rewrite Hr.
Qed.

(** X6: [do_force_reload] leaves a reload job running; it launches one,
    with [--reload --notify], when none was running, changes nothing when
    one was, and a second call right after changes nothing. *)
Theorem force_reload_starts_once w :
  let w1 := (do_force_reload w).2 in
  "reload" ∈ running w1 ∧
  ("reload" ∉ running w →
     launched w1
     = (launched w ++ [("reload", [argv0 w; "--reload"; "--notify"])])%list) ∧
  ("reload" ∈ running w → w1 = w) ∧
  do_force_reload w1 = (Return tt, w1).
Proof.
  cbv zeta. rewrite !do_force_reload_eq. cbn [snd].
  case_bool_decide as Hr.
  - rewrite bool_decide_eq_true_2 by done. done.
  - assert ("reload" ∈ running
              (set_jobs ({["reload"]} ∪ running w)
                 (launched w ++ [("reload",
                    [argv0 w; "--reload"; "--notify"])]) w)) as Hnow.
    { cbn. set_solver. }
    rewrite bool_decide_eq_true_2 by done. done.
Qed.

(** X7: a query made after [do_force_reload] starts no job of its own and
    asks for a rerun. *)
Theorem query_after_force_reload cfg query w :
  let w1 := (do_force_reload w).2 in
  launched (run_main cfg (query_args query) w1).2 = launched w1 ∧
  rerun (run_main cfg (query_args query) w1).2 = 0.2%Q.
Proof.
  cbv zeta.
  assert ("reload" ∈ running (do_force_reload w).2) as Hr.
  { rewrite do_force_reload_eq. cbn [snd]. case_bool_decide; [done|].
    cbn. set_solver. }
  destruct (refresh_decision cfg query (do_force_reload w).2)
    as (_ & Hbusy & _).
  destruct (Hbusy Hr) as (Hl & _ & Hrr). done.
Qed.
End ForceReload.

Section QueryRun.
Context {number : Type} `{!PyHash number} `{!Externals number}.
Implicit Types (w : World number) (cfg : Config).

(** X12: a query never writes the event cache, the icon directory, the
    renderer log, the triggers or the commands. *)
Theorem query_reads_only cfg query w :
  let out := (run_main cfg (query_args query) w).2 in
  events_cache out = events_cache w ∧ fs out = fs w ∧
  renders out = renders w ∧ triggers out = triggers w ∧
  commands out = commands w ∧ clock out = clock w.
Proof.
  cbv zeta. rewrite run_main_query.
  destruct (search_events_footprint cfg (from_option id "" query)
              (wf.Workflow3 w)) as (its & sent & ->).
  unfold after_refresh. by repeat case_match.
Qed.

(** X13: with nothing cached, every query returns with the single item
    [Loading Events…], a rerun interval of 0.2, the feedback sent and a
    reload job running: the [No Data] item is never what an empty cache
    shows. *)
Theorem empty_cache_shows_loading cfg query w :
  events_cache w = None →
  let out := run_main cfg (query_args query) w in
  out.1 = Return tt ∧
  items out.2 = [loading_item (number:=number)] ∧
  rerun out.2 = 0.2%Q ∧ feedback_sent out.2 = true ∧
  "reload" ∈ running out.2.
Proof.
  intros Hcache. cbv zeta. rewrite run_main_query, search_events_eq.
  assert (∀ age, wf.load age (wf.Workflow3 w) = None) as Hload.
  { intros age. unfold wf.load. cbn. by rewrite Hcache. }
  rewrite Hload. unfold after_refresh, reloading_after. rewrite Hload.
  rewrite bool_decide_eq_false_2 by (by intros [? ?]). cbn [negb andb orb].
  case_bool_decide as Hr; cbn; (split_and!; [done..|]); set_solver.
Qed.

(** X14: a cached dictionary that has an empty error message and no
    [events] key passes both tests of [main] and makes the query raise
    [KeyError('events')], with no item added. *)
Theorem missing_events_key_raises cfg query w data stamp :
  events_cache w = Some (data, stamp) →
  events data = None → error data = Some "" →
  (run_main cfg (query_args query) w).1 = Raise (KeyError "events") ∧
  items (run_main cfg (query_args query) w).2 = [].
Proof.
  intros Hcache Hevs Herr. rewrite run_main_query, search_events_eq.
  assert (wf.load 0 (wf.Workflow3 w) = Some data) as ->.
  { unfold wf.load. cbn. by rewrite Hcache. }
  unfold data_truthy, show_events. rewrite Hevs, Herr. cbn.
  unfold after_refresh. by repeat case_match.
Qed.
End QueryRun.

(** ** More on the event filter and the listing *)

Section Filtering.
Context {number : Type} `{!PyHash number} `{!Externals number}.
Implicit Types (w : World number) (cfg : Config) (e : Event number).

Lemma verdict_kept cfg now e :
  (verdict cfg now e).1 = true →
  wanted cfg now e ∧ same_but_url e (verdict cfg now e).2 ∧
  first_match (REGEXES cfg) [url e; location e; notes e]
    (url (verdict cfg now e).2).
Proof.
  unfold verdict, wanted.
  destruct (end_date e <? now)%Z eqn:Hend; [done|]. apply Z.ltb_ge in Hend.
  destruct (bool_decide (ACCOUNTS cfg ≠ ∅)
            && negb (bool_decide (account e ∈ ACCOUNTS cfg))) eqn:Hacc;
    [done|].
  destruct (bool_decide (CALENDARS cfg ≠ ∅)
            && negb (bool_decide (calendar e ∈ CALENDARS cfg))) eqn:Hcal;
    [done|].
  destruct (search_candidates _ _) as [m|] eqn:Hsearch; [|done]. intros _.
  apply search_candidates_some in Hsearch.
  split_and!; try done.
  - intros Hne. apply andb_false_iff in Hacc as [Hacc|Hacc].
    + by apply bool_decide_eq_false in Hacc.
    + by apply negb_false_iff, bool_decide_eq_true in Hacc.
  - intros Hne. apply andb_false_iff in Hcal as [Hcal|Hcal].
    + by apply bool_decide_eq_false in Hcal.
    + by apply negb_false_iff, bool_decide_eq_true in Hcal.
  - by apply first_match_some_match in Hsearch.
Qed.

Lemma verdict_dropped cfg now e :
  (verdict cfg now e).1 = false → ¬ wanted cfg now e.
Proof.
  unfold verdict, wanted. intros Hv (Hend & Hacc & Hcal & Hsome).
  destruct (end_date e <? now)%Z eqn:E1.
  { apply Z.ltb_lt in E1. lia. }
  destruct (bool_decide (ACCOUNTS cfg ≠ ∅)
            && negb (bool_decide (account e ∈ ACCOUNTS cfg))) eqn:E2.
  { apply andb_true_iff in E2 as [Hne Hout].
    apply bool_decide_eq_true in Hne.
    apply negb_true_iff, bool_decide_eq_false in Hout. auto. }
  destruct (bool_decide (CALENDARS cfg ≠ ∅)
            && negb (bool_decide (calendar e ∈ CALENDARS cfg))) eqn:E3.
  { apply andb_true_iff in E3 as [Hne Hout].
    apply bool_decide_eq_true in Hne.
    apply negb_true_iff, bool_decide_eq_false in Hout. auto. }
  destruct (search_candidates _ _) as [m|] eqn:Hsearch; [done|].
  by apply search_candidates_none in Hsearch.
Qed.

Lemma filter_events_kept_of cfg evs w :
  filter_events cfg evs w = (Return (kept_of cfg (clock w) evs), w).
Proof.
  induction evs as [|e evs IH]; [done|]. cbn [filter_events].
  unfold bind. rewrite event_filter_eq, IH. unfold kept_of.
  cbn [omap list_omap fst snd ret]. by destruct (verdict cfg (clock w) e).1.
Qed.

(** X15: [filter(event_filter, events)] keeps the order of the events and
    invents none; every kept event comes from a wanted event, differs from
    it in the url at most and has the first match as its url; every wanted
    event is kept. *)
Theorem filter_events_keeps_the_wanted cfg evs w :
  ∃ kept,
    filter_events cfg evs w = (Return kept, w) ∧
    uid <$> kept `sublist_of` uid <$> evs ∧
    (∀ e', e' ∈ kept →
       ∃ e, e ∈ evs ∧ wanted cfg (clock w) e ∧ same_but_url e e' ∧
            first_match (REGEXES cfg) [url e; location e; notes e] (url e')) ∧
    (∀ e, e ∈ evs → wanted cfg (clock w) e →
       ∃ e', e' ∈ kept ∧ same_but_url e e').
Proof.
  exists (kept_of cfg (clock w) evs). split; [apply filter_events_kept_of|].
  unfold kept_of. split_and!.
  - induction evs as [|e evs IH]; [done|]. cbn [omap list_omap].
    pose proof (verdict_kept cfg (clock w) e) as Hkept.
    destruct (verdict cfg (clock w) e) as [[|] e']; cbn [fst snd] in *.
    + destruct (Hkept eq_refl) as (_ & Hsame & _).
      destruct Hsame as (_ & _ & _ & _ & _ & _ & _ & _ & Huid).
      rewrite !fmap_cons, Huid. by apply sublist_skip.
    + rewrite fmap_cons. by apply sublist_cons.
  - intros e' (e & He & Hsome)%list_elem_of_omap.
    destruct (verdict cfg (clock w) e).1 eqn:Hv; [|done].
    injection Hsome as <-. exists e.
    destruct (verdict_kept cfg (clock w) e Hv) as (? & ? & ?). done.
  - intros e He Hwanted.
    destruct (verdict cfg (clock w) e).1 eqn:Hv.
    + exists (verdict cfg (clock w) e).2. split.
      * apply list_elem_of_omap. exists e. by rewrite Hv.
      * by apply verdict_kept.
    + by apply verdict_dropped in Hv.
Qed.

Lemma kept_of_no_pattern cfg evs w :
  REGEXES cfg = [] → filter_events cfg evs w = (Return [], w).
Proof.
  intros Hrx. rewrite filter_events_kept_of. do 2 f_equal.
  unfold kept_of. induction evs as [|e evs IH]; [done|].
  cbn [omap list_omap].
  assert ((verdict cfg (clock w) e).1 = false) as ->; [|done].
  unfold verdict. rewrite Hrx. by repeat case_match.
Qed.

(** X16: with no pattern configured every event is rejected, unchanged,
    and the filtered list is empty. *)
Theorem no_pattern_no_event cfg evs w :
  REGEXES cfg = [] →
  filter_events cfg evs w = (Return [], w) ∧
  ∀ e, e ∈ evs → (event_filter cfg e w).1 = Return (false, e).
Proof.
  intros Hrx. split; [by apply kept_of_no_pattern|].
  intros e _. rewrite event_filter_eq. cbn [fst]. f_equal.
  unfold verdict. rewrite Hrx. by repeat case_match.
Qed.
End Filtering.

Section Listing.
Context {number : Type} `{!PyHash number} `{!Externals number}.
Implicit Types (w : World number) (cfg : Config) (d : Event number).

Lemma icon_for_frame w w' d :
  fs w' = fs w → cachedir w' = cachedir w → icon_for w' d = icon_for w d.
Proof.
  intros Hfs Hdir. unfold icon_for, icon_store. rewrite Hdir.
  unfold Icons.get_icon, bind, lift, os.path_exists, gets, ret.
  destruct (Icons._icon_path _ _); cbn; by rewrite ?Hfs.
Qed.

Lemma add_event_item_eq w0 w d :
  fs w = fs w0 → cachedir w = cachedir w0 → colour d ≠ [] →
  add_event_item (icon_store w0) d w
  = (Return tt, set_items (items w ++ [event_item w0 d]) w).
Proof.
  intros Hfs Hdir Hne.
  assert (Icons.get_icon (icon_store w0) (colour d) None w
          = (Return (icon_for w0 d), w)) as Hget.
  { rewrite <- (icon_for_frame w0 w d Hfs Hdir).
    unfold icon_for, icon_store. rewrite Hdir.
    destruct (colour d) as [|c cs]; [done|].
    destruct (icon_path_defined
                (Icons.init (posixpath.join (cachedir w0) ["icons"])) c cs)
      as (path & Hp & _).
    by rewrite (get_icon_eq _ _ _ _ _ _ Hp). }
  unfold add_event_item. rewrite (bind_eq_Return _ _ _ _ _ Hget).
  cbv beta iota delta [bind wf.add_item wf.setvar modify].
  destruct w as [? ? ? ? ? ? ? ? ? ? ? its ? ?].
  unfold set_items. cbn [fst snd items]. do 2 f_equal.
  rewrite <- (Nat.add_0_r (length its)).
  rewrite !alter_app_r. cbn [alter list_alter]. reflexivity.
Qed.

Lemma add_event_items_eq w0 (shown : list (Event number)) w :
  fs w = fs w0 → cachedir w = cachedir w0 →
  Forall (λ d, colour d ≠ []) shown →
  for_each shown (add_event_item (icon_store w0)) w
  = (Return tt, set_items (items w ++ (event_item w0 <$> shown)) w).
Proof.
  intros Hfs Hdir Hne. revert w Hfs Hdir.
  induction Hne as [|d shown Hd Hne IH]; intros w Hfs Hdir.
  - cbn. rewrite app_nil_r. by destruct w.
  - cbn [for_each].
    rewrite (bind_eq_Return _ _ _ _ _ (add_event_item_eq w0 w d Hfs Hdir Hd)).
    rewrite IH by done. cbn [items set_items fmap list_fmap].
    by rewrite <- app_assoc.
Qed.

(** X17: for a cached dictionary with events and no error, a query whose
    shown events all have colours returns, sends the feedback, and lists one
    item per shown event in order (title, matched url as argument, the icon
    [get_icon] finds, calendar and event id as variables), then the reload
    item for a query of [reload_queries]; when that list is empty it holds
    the one warning item, titled by whether a query was given. *)
Theorem query_lists_the_kept_events cfg query w data stamp evs kept :
  events_cache w = Some (data, stamp) →
  Py.truthy (error data) = false → events data = Some evs →
  (filter_events cfg evs w).1 = Return kept →
  let q := from_option id "" query in
  let shown := if negb (String.eqb q "") then wf_filter q kept else kept in
  Forall (λ d, colour d ≠ []) shown →
  (run_main cfg (query_args query) w).1 = Return tt ∧
  items (run_main cfg (query_args query) w).2 = listing w q shown ∧
  feedback_sent (run_main cfg (query_args query) w).2 = true.
Proof.
  intros Hcache Herr Hevs Hkept q shown Hne.
  rewrite filter_events_kept_of in Hkept. injection Hkept as Hkept.
  rewrite run_main_query, search_events_eq. fold q.
  assert (wf.load 0 (wf.Workflow3 w) = Some data) as ->.
  { unfold wf.load. cbn. by rewrite Hcache. }
  assert (data_truthy (Some data) = true) as ->.
  { unfold data_truthy. by rewrite Hevs. }
  set (w2 := after_refresh cfg (wf.Workflow3 w)).
  assert (fs w2 = fs w ∧ cachedir w2 = cachedir w ∧ clock w2 = clock w ∧
          items w2 = []) as (Hfs & Hdir & Hclock & Hitems).
  { subst w2. unfold after_refresh. by repeat case_match. }
  unfold show_events. rewrite Herr, Hevs.
  erewrite bind_eq_Return by reflexivity.
  rewrite (bind_eq_Return _ _ _ _ _ (filter_events_kept_of cfg evs w2)).
  rewrite Hclock, Hkept. fold shown.
  erewrite bind_eq_Return by reflexivity.
  change (Icons.init (posixpath.join (cachedir w2) ["icons"]))
    with (icon_store w2).
  assert (icon_store w2 = icon_store w) as ->.
  { unfold icon_store. by rewrite Hdir. }
  rewrite (bind_eq_Return _ _ _ _ _
             (add_event_items_eq w shown w2 Hfs Hdir Hne)).
  rewrite (bind_eq_Return _ _ _ _ _ (offer_reload_eq q _)).
  rewrite (bind_eq_Return _ _ _ _ _ (warn_empty_eq _ _)).
  unfold wf.send_feedback, modify. cbn [fst snd]. split; [done|].
  rewrite Hitems, app_nil_l. unfold listing.
  destruct (decide (q ∈ reload_queries)) as [Hq|Hq].
  - rewrite (bool_decide_eq_true_2 _ Hq).
    rewrite (proj2 (reload_guard q) Hq).
    cbn [items set_items set_feedback_sent feedback_sent].
    rewrite length_app, Nat.add_comm. cbn [length Nat.add Nat.eqb].
    split; [|done]. by destruct (event_item w <$> shown).
  - rewrite (bool_decide_eq_false_2 _ Hq).
    destruct ((1 <? String.length q)%nat && Py.startswith "reload" q) eqn:Hg.
    { by apply reload_guard in Hg. }
    rewrite app_nil_r. cbn [items set_items].
    destruct (event_item w <$> shown) as [|i its] eqn:Hits; by cbn.
Qed.
End Listing.

(** ** Loading the configuration *)

Section Configuration.
Context `{!Builtins}.
Implicit Types (env : list (string * string)) (cfg globals : Config).

Lemma prefixes_exclusive k :
  (Py.startswith k "account_" = true →
     Py.startswith k "calendar_" = false ∧ Py.startswith k "regex_" = false) ∧
  (Py.startswith k "calendar_" = true →
     Py.startswith k "account_" = false ∧ Py.startswith k "regex_" = false) ∧
  (Py.startswith k "regex_" = true →
     Py.startswith k "account_" = false ∧ Py.startswith k "calendar_" = false).
Proof.
  destruct k as [|c k]; [done|]. cbn [Py.startswith].
  split_and!; intros [Hc _]%andb_true_iff; apply Ascii.eqb_eq in Hc as <-;
    done.
Qed.

Lemma load_variables_thresholds env cfg :
  MAX_CACHE_AGE (fold_left load_variable env cfg) = MAX_CACHE_AGE cfg ∧
  LOOKAHEAD_DAYS (fold_left load_variable env cfg) = LOOKAHEAD_DAYS cfg.
Proof.
  revert cfg. induction env as [|kv env IH]; intros cfg; [done|].
  cbn [fold_left]. destruct (IH (load_variable cfg kv)) as [-> ->].
  unfold load_variable. by repeat case_match.
Qed.

Ltac collect :=
  repeat match goal with
         | H : _ ∨ _ |- _ => destruct H
         | H : _ ∧ _ |- _ => destruct H
         | H : ∃ _, _ |- _ => destruct H
         | H : (_, _) = (_, _) |- _ => injection H as ? ?
         end;
  subst; try congruence;
  first [ by left | by left; left | by left; right
        | by right; split; [|eexists; split; [by left|]]
        | by right; split; [|eexists; split; [by right|]]
        | by right; split; [|eexists; split; [eassumption|]] ].

Lemma load_variable_accounts cfg k x :
  ACCOUNTS (load_variable cfg (k, x))
  = if Py.startswith k "account_" && negb (String.eqb x "")
    then {[x]} ∪ ACCOUNTS cfg else ACCOUNTS cfg.
Proof. unfold load_variable. cbn [fst snd]. by repeat case_match. Qed.

Lemma load_variable_calendars cfg k x :
  CALENDARS (load_variable cfg (k, x))
  = if Py.startswith k "calendar_" && negb (String.eqb x "")
    then {[x]} ∪ CALENDARS cfg else CALENDARS cfg.
Proof.
  unfold load_variable. cbn [fst snd].
  destruct (Py.startswith k "account_") eqn:Ha.
  - destruct (proj1 (prefixes_exclusive k) Ha) as [-> _].
    by repeat case_match.
  - by repeat case_match.
Qed.

Lemma load_variable_regexes cfg kv :
  REGEXES (load_variable cfg kv)
  = (REGEXES cfg ++ option_list (compiled kv))%list.
Proof.
  unfold load_variable, compiled.
  destruct (Py.startswith kv.1 "regex_") eqn:Hr.
  - destruct (proj2 (proj2 (prefixes_exclusive kv.1)) Hr) as [-> ->].
    cbn [andb]. destruct (re_compile kv.2); [done|].
    cbn. by rewrite app_nil_r.
  - repeat case_match; cbn; by rewrite app_nil_r.
Qed.

Lemma load_variables_accounts env cfg v :
  v ∈ ACCOUNTS (fold_left load_variable env cfg) ↔
  v ∈ ACCOUNTS cfg ∨
  (v ≠ "" ∧ ∃ k, (k, v) ∈ env ∧ Py.startswith k "account_" = true).
Proof.
  revert cfg. induction env as [|[k x] env IH]; intros cfg.
  - cbn. split; [auto|]. intros [?|(_ & k & Hin & _)]; [done|].
    by apply elem_of_nil in Hin.
  - cbn [fold_left]. rewrite IH, load_variable_accounts.
    setoid_rewrite elem_of_cons.
    destruct (Py.startswith k "account_") eqn:Ha;
      destruct (String.eqb_spec x "") as [Hx|Hx]; cbn [negb andb];
      rewrite ?elem_of_union, ?elem_of_singleton;
      split; intros Hv; collect.
Qed.

Lemma load_variables_calendars env cfg v :
  v ∈ CALENDARS (fold_left load_variable env cfg) ↔
  v ∈ CALENDARS cfg ∨
  (v ≠ "" ∧ ∃ k, (k, v) ∈ env ∧ Py.startswith k "calendar_" = true).
Proof.
  revert cfg. induction env as [|[k x] env IH]; intros cfg.
  - cbn. split; [auto|]. intros [?|(_ & k & Hin & _)]; [done|].
    by apply elem_of_nil in Hin.
  - cbn [fold_left]. rewrite IH, load_variable_calendars.
    setoid_rewrite elem_of_cons.
    destruct (Py.startswith k "calendar_") eqn:Ha;
      destruct (String.eqb_spec x "") as [Hx|Hx]; cbn [negb andb];
      rewrite ?elem_of_union, ?elem_of_singleton;
      split; intros Hv; collect.
Qed.

Lemma load_variables_regexes env cfg :
  REGEXES (fold_left load_variable env cfg)
  = (REGEXES cfg ++ omap compiled env)%list.
Proof.
  revert cfg. induction env as [|kv env IH]; intros cfg.
  - cbn. by rewrite app_nil_r.
  - cbn [fold_left omap list_omap]. rewrite IH, load_variable_regexes.
    rewrite <- app_assoc. f_equal. by destruct (compiled kv).
Qed.

Lemma load_config_Return env globals cfg :
  load_config env globals = Return cfg →
  ∃ age days,
    cfg = fold_left load_variable env
            (mkConfig age days (ACCOUNTS globals) (CALENDARS globals)
                      (REGEXES globals)).
Proof.
  unfold load_config. repeat case_match; try done. intros [= <-]. eauto.
Qed.

(** X18: after [load_config] the account names are the ones held before
    and the non-empty values of the variables named [account_...]; likewise
    the calendar names with [calendar_...].  A variable with an empty value
    adds no name. *)
Theorem load_config_collects_names env globals cfg :
  load_config env globals = Return cfg →
  (∀ v, v ∈ ACCOUNTS cfg ↔
        v ∈ ACCOUNTS globals ∨
        (v ≠ "" ∧ ∃ k, (k, v) ∈ env ∧ Py.startswith k "account_" = true)) ∧
  (∀ v, v ∈ CALENDARS cfg ↔
        v ∈ CALENDARS globals ∨
        (v ≠ "" ∧ ∃ k, (k, v) ∈ env ∧ Py.startswith k "calendar_" = true)).
Proof.
  intros (age & days & ->)%load_config_Return. split; intros v.
  - by rewrite load_variables_accounts.
  - by rewrite load_variables_calendars.
Qed.

(** X19: [load_config] appends, in the order of the environment, the
    patterns of the [regex_...] variables that compile; one that does not
    compile is skipped and does not stop the others. *)
Theorem load_config_skips_bad_patterns env globals cfg :
  load_config env globals = Return cfg →
  REGEXES cfg = (REGEXES globals ++ omap compiled env)%list.
Proof.
  intros (age & days & ->)%load_config_Return.
  by rewrite load_variables_regexes.
Qed.

(** X20: with [max_cache_seconds] and [lookahead_days] absent or empty,
    [load_config] returns and keeps both values; a [max_cache_seconds] that
    [int] accepts becomes the cache age; a value of either that [int]
    rejects makes [load_config] raise. *)
Theorem load_config_thresholds env globals :
  (Py.truthy (getenv env "max_cache_seconds") = false →
   Py.truthy (getenv env "lookahead_days") = false →
   ∃ cfg, load_config env globals = Return cfg ∧
          MAX_CACHE_AGE cfg = MAX_CACHE_AGE globals ∧
          LOOKAHEAD_DAYS cfg = LOOKAHEAD_DAYS globals) ∧
  (∀ text n, getenv env "max_cache_seconds" = Some text → text ≠ "" →
             py_int text = Return n →
             ∀ cfg, load_config env globals = Return cfg →
                    MAX_CACHE_AGE cfg = n) ∧
  (∀ name text e,
     name = "max_cache_seconds" ∨ name = "lookahead_days" →
     getenv env name = Some text → text ≠ "" → py_int text = Raise e →
     ∃ e', load_config env globals = Raise e').
Proof.
  assert (∀ v current, Py.truthy v = false →
            int_setting v current = Return current) as Hfalsy.
  { intros [text|] current; cbn; [|done].
    by destruct (String.eqb text ""). }
  assert (∀ text current, text ≠ "" →
            int_setting (Some text) current = py_int text) as Hint.
  { intros text current Hne. cbn. by rewrite (eqb_empty_false text Hne). }
  split_and!.
  - intros Hage Hdays. unfold load_config.
    rewrite (Hfalsy _ _ Hage), (Hfalsy _ _ Hdays). eexists. split; [done|].
    by destruct (load_variables_thresholds env
                   (mkConfig (MAX_CACHE_AGE globals) (LOOKAHEAD_DAYS globals)
                      (ACCOUNTS globals) (CALENDARS globals)
                      (REGEXES globals))) as [-> ->].
  - intros text n Hget Hne Hn cfg. unfold load_config.
    rewrite Hget, (Hint _ _ Hne), Hn.
    destruct (int_setting _ _) as [days|]; [|done]. intros [= <-].
    by destruct (load_variables_thresholds env
                   (mkConfig n days (ACCOUNTS globals) (CALENDARS globals)
                      (REGEXES globals))) as [-> _].
  - intros name text e [-> | ->] Hget Hne He; unfold load_config;
      rewrite Hget, (Hint _ _ Hne), He; [by eexists|].
    destruct (int_setting _ _); by eexists.
Qed.
End Configuration.

Section Unconfigured.
Context {number : Type} `{!PyHash number} `{!Externals number} `{!Builtins}.

(** X21: from the module defaults, an environment in which no [regex_...]
    variable compiles gives a configuration under which the filter keeps no
    event. *)
Theorem unconfigured_lists_nothing env cfg (evs : list (Event number))
    (w : World number) :
  load_config env default_config = Return cfg →
  omap compiled env = [] →
  filter_events cfg evs w = (Return [], w).
Proof.
  intros (age & days & ->)%load_config_Return Hnone.
  apply kept_of_no_pattern. by rewrite load_variables_regexes, Hnone.
Qed.
End Unconfigured.

(** ** The further properties at concrete inputs *)

Lemma create_icon_without_template_witness :
  Py.truthy None = false ∧ Py.truthy (Icons.template Scenes.bare) = false ∧
  Icons.create_icon Scenes.bare Demo.green None Demo.empty_world
  = (Raise (ValueError "no template specified"), Demo.empty_world).
Proof.
  split; [reflexivity|]. split; [reflexivity|].
  apply (create_icon_without_template Scenes.bare Demo.green None
           Demo.empty_world); reflexivity.
Defined.

Lemma create_icon_then_get_icon_witness :
  ∃ path,
    (Icons.create_icon Demo.icons [0; 0; 0; 1]%Z None Demo.empty_world).1
      = Return path ∧
    Icons.get_icon Demo.icons [0; 0; 0; 1]%Z (Some "fallback.png")
      (Icons.create_icon Demo.icons [0; 0; 0; 1]%Z None Demo.empty_world).2
    = (Return (Some path),
       (Icons.create_icon Demo.icons [0; 0; 0; 1]%Z None Demo.empty_world).2).
Proof.
  apply (create_icon_then_get_icon Demo.icons 0%Z [0; 0; 1]%Z None
           (Some "fallback.png") Demo.empty_world).
  reflexivity.
Defined.

Lemma create_icon_keeps_existing_witness :
  fs Scenes.stocked !! "/cache/icons/0/0/0/1/0-0-0-1.png"
    = Some (Image "icon.png" Demo.green) ∧
  fs (Icons.create_icon Demo.icons [1; 1; 1; 1]%Z None Scenes.stocked).2
    !! "/cache/icons/0/0/0/1/0-0-0-1.png"
    = Some (Image "icon.png" Demo.green).
Proof.
  assert (fs Scenes.stocked !! "/cache/icons/0/0/0/1/0-0-0-1.png"
          = Some (Image "icon.png" Demo.green)) as Hthere
    by (vm_compute; reflexivity).
  split; [exact Hthere|].
  exact (create_icon_keeps_existing Demo.icons [1; 1; 1; 1]%Z None
           Scenes.stocked _ _ Hthere).
Defined.

Lemma empty_colour_is_type_error_witness :
  Py.truthy (Py.or_ None (Icons.template Demo.icons)) = true ∧
  ∃ msg, Icons.create_icon Demo.icons ([] : list Z) None Demo.empty_world
         = (Raise (TypeError msg), Demo.empty_world).
Proof.
  split; [reflexivity|].
  apply (proj2 (empty_colour_is_type_error Demo.icons None None
                  Demo.empty_world)).
  reflexivity.
Defined.

(** The integers -1 and -2 have the same hash, so these two colours share
    one icon path. *)
Lemma icon_path_determines_hashes_witness :
  Icons._icon_path Demo.icons [-1; 0; 0; 1]%Z
    = Icons._icon_path Demo.icons [-2; 0; 0; 1]%Z ∧
  hash (-1)%Z = hash (-2)%Z.
Proof.
  assert (Icons._icon_path Demo.icons [-1; 0; 0; 1]%Z
          = Icons._icon_path Demo.icons [-2; 0; 0; 1]%Z) as Hsame
    by reflexivity.
  split; [exact Hsame|].
  exact (proj1 (icon_path_determines_hashes Demo.icons _ _ _ _ _ _ _ _ Hsame)).
Defined.

Lemma force_reload_starts_once_witness :
  ("reload" ∉ running Demo.empty_world) ∧
  launched (do_force_reload Demo.empty_world).2
  = [("reload", ["video-conferences.py"; "--reload"; "--notify"])].
Proof.
  assert ("reload" ∉ running Demo.empty_world) as Hidle
    by apply not_elem_of_empty.
  split; [exact Hidle|].
  exact (proj1 (proj2 (force_reload_starts_once Demo.empty_world)) Hidle).
Defined.


Lemma reload_adds_icons_only_witness :
  fs Scenes.stocked !! "/cache/icons/0/0/0/1/0-0-0-1.png"
    = Some (Image "icon.png" Demo.green) ∧
  fs (do_reload Demo.cfg true Scenes.stocked).2
    !! "/cache/icons/0/0/0/1/0-0-0-1.png"
    = Some (Image "icon.png" Demo.green).
Proof.
  assert (fs Scenes.stocked !! "/cache/icons/0/0/0/1/0-0-0-1.png"
          = Some (Image "icon.png" Demo.green)) as Hthere
    by (vm_compute; reflexivity).
  split; [exact Hthere|].
  exact (proj1 (reload_adds_icons_only Demo.cfg true Scenes.stocked) _ _
           Hthere).
Defined.

Lemma reload_notifies_on_completion_witness :
  (do_reload Demo.cfg true Demo.empty_world).1 = Return tt ∧
  triggers (do_reload Demo.cfg true Demo.empty_world).2 = ["notify"].
Proof.
  assert ((do_reload Demo.cfg true Demo.empty_world).1 = Return tt) as Hdone
    by (vm_compute; reflexivity).
  split; [exact Hdone|].
  exact (proj1 (reload_notifies_on_completion Demo.cfg true Demo.empty_world)
           Hdone).
Defined.

Lemma empty_cache_shows_loading_witness :
  events_cache Demo.empty_world = None ∧
  items (run_main Demo.cfg (query_args (Some "stand")) Demo.empty_world).2
  = [loading_item (number:=Z)].
Proof.
  split; [reflexivity|].
  exact (proj1 (proj2 (empty_cache_shows_loading Demo.cfg (Some "stand")
                         Demo.empty_world eq_refl))).
Defined.

Lemma missing_events_key_raises_witness :
  (run_main Demo.cfg (query_args None) (Demo.cached Scenes.keyless)).1
    = Raise (KeyError "events") ∧
  items (run_main Demo.cfg (query_args None) (Demo.cached Scenes.keyless)).2
    = [].
Proof.
  apply (missing_events_key_raises Demo.cfg None (Demo.cached Scenes.keyless)
           Scenes.keyless 900%Z); reflexivity.
Defined.

Lemma no_pattern_no_event_witness :
  REGEXES Scenes.no_patterns = [] ∧
  filter_events Scenes.no_patterns [Demo.standup; Demo.lunch] Demo.empty_world
  = (Return [], Demo.empty_world).
Proof.
  split; [reflexivity|].
  exact (proj1 (no_pattern_no_event Scenes.no_patterns
                  [Demo.standup; Demo.lunch] Demo.empty_world eq_refl)).
Defined.

Lemma query_lists_the_kept_events_witness :
  (run_main Demo.cfg (query_args None) (Demo.cached Demo.good)).1 = Return tt ∧
  items (run_main Demo.cfg (query_args None) (Demo.cached Demo.good)).2
    = listing (Demo.cached Demo.good) ""
        [set_url "https://meet.example/abc" Demo.standup] ∧
  feedback_sent (run_main Demo.cfg (query_args None)
                   (Demo.cached Demo.good)).2 = true.
Proof.
  apply (query_lists_the_kept_events Demo.cfg None (Demo.cached Demo.good)
           Demo.good 900%Z [Demo.standup; Demo.lunch]
           [set_url "https://meet.example/abc" Demo.standup]);
    [reflexivity | reflexivity | reflexivity | vm_compute; reflexivity |].
  repeat constructor; discriminate.
Defined.

Lemma load_config_collects_names_witness :
  load_config DemoConfig.env default_config
    = Return (mkConfig 300 7 {["Work"]} {["Team"]}
                [mkPattern (Demo.find_link "https://meet.example/")]) ∧
  ("Work" ∈ ACCOUNTS (mkConfig 300 7 {["Work"]} {["Team"]}
                        [mkPattern (Demo.find_link "https://meet.example/")])
   ↔ "Work" ∈ ACCOUNTS default_config ∨
     ("Work" ≠ "" ∧
      ∃ k, (k, "Work") ∈ DemoConfig.env ∧ Py.startswith k "account_" = true)).
Proof.
  assert (load_config DemoConfig.env default_config
          = Return (mkConfig 300 7 {["Work"]} {["Team"]}
                      [mkPattern (Demo.find_link "https://meet.example/")]))
    as Hload by (vm_compute; reflexivity).
  split; [exact Hload|].
  exact (proj1 (load_config_collects_names DemoConfig.env default_config _
                  Hload) "Work").
Defined.

Lemma load_config_skips_bad_patterns_witness :
  load_config DemoConfig.env default_config
    = Return (mkConfig 300 7 {["Work"]} {["Team"]}
                [mkPattern (Demo.find_link "https://meet.example/")]) ∧
  [mkPattern (Demo.find_link "https://meet.example/")]
  = (REGEXES default_config ++ omap compiled DemoConfig.env)%list.
Proof.
  assert (load_config DemoConfig.env default_config
          = Return (mkConfig 300 7 {["Work"]} {["Team"]}
                      [mkPattern (Demo.find_link "https://meet.example/")]))
    as Hload by (vm_compute; reflexivity).
  split; [exact Hload|].
  exact (load_config_skips_bad_patterns DemoConfig.env default_config _ Hload).
Defined.

Lemma load_config_thresholds_witness :
  getenv DemoConfig.env "max_cache_seconds" = Some "300" ∧
  py_int "300" = Return 300%Z ∧
  MAX_CACHE_AGE (mkConfig 300 7 {["Work"]} {["Team"]}
                   [mkPattern (Demo.find_link "https://meet.example/")])
  = 300%Z.
Proof.
  split; [reflexivity|]. split; [reflexivity|].
  apply (proj1 (proj2 (load_config_thresholds DemoConfig.env default_config))
           "300" 300%Z); [reflexivity | discriminate | reflexivity |].
  vm_compute. reflexivity.
Defined.

Lemma unconfigured_lists_nothing_witness :
  load_config [("account_1", "Work"); ("regex_bad", "[")] default_config
    = Return (mkConfig 600 7 {["Work"]} ∅ []) ∧
  filter_events (mkConfig 600 7 {["Work"]} ∅ []) [Demo.standup]
    Demo.empty_world
  = (Return [], Demo.empty_world).
Proof.
  assert (load_config [("account_1", "Work"); ("regex_bad", "[")]
            default_config
          = Return (mkConfig 600 7 {["Work"]} ∅ [])) as Hload
    by (vm_compute; reflexivity).
  split; [exact Hload|].
  exact (unconfigured_lists_nothing _ _ [Demo.standup] Demo.empty_world Hload
           eq_refl).
Defined.
